(** * useNative: capability detection and native/browser dispatch

    A shallow embedding of the [useNative] hook of the zOS SDK
    (hooks/useNative.ts).  The hook keeps a record of six capability flags
    in React state, fills it once from the globals [window.__TAURI__] and
    [window.__TAURI_NATIVE__], and returns eight asynchronous operations,
    each of which tests [window.__TAURI__] when it is called and either
    loads a Tauri plugin or falls back on a browser API.

    The browser and the native host are not part of the repository.  They
    appear here as a [World]: the globals the code reads, the state of
    localStorage, of the clipboard and of the notification permission, and
    the answers the host and the user give.  An operation is a function
    from a world to the outcome of its promise, the world it leaves behind,
    and the list of calls it made on the outside. *)

From Stdlib Require Import PrimFloat.
From stdpp Require Import base strings gmap list.

(** ** Promises and what they settle with *)

Inductive PluginModule :=
  | PluginFs                 (* @tauri-apps/plugin-fs *)
  | PluginNotification       (* @tauri-apps/plugin-notification *)
  | PluginClipboardManager   (* @tauri-apps/plugin-clipboard-manager *)
  | PluginDialog             (* @tauri-apps/plugin-dialog *)
  | PluginShell.             (* @tauri-apps/plugin-shell *)

Inductive JsError :=
  | HostError (msg : string)   (* whatever the native side rejected with *)
  | QuotaExceededError         (* localStorage.setItem on a full store *)
  | SecurityError              (* window.localStorage where storage is refused *)
  | SyntaxError                (* window.open on a URL that does not parse *)
  | NotAllowedError            (* the browser denies clipboard access *)
  | TypeError.                 (* a method called on undefined; an illegal
                                  constructor *)

(** The state of a promise seen by the caller.  [Pending] is a promise
    that nothing will ever settle. *)
Inductive Promise (A : Type) :=
  | Resolved (a : A)
  | Rejected (e : JsError)
  | Pending.
Arguments Resolved {A} a.
Arguments Rejected {A} e.
Arguments Pending {A}.

(** ** The host *)

(** [mod.open] of the dialog plugin answers null, one path or several. *)
Inductive OpenResult :=
  | OpenNull
  | OpenPath (p : string)
  | OpenPaths (ps : list string).

(** The native host, as the code sees it through the plugin modules.  Every
    entry is the promise the corresponding call returns; [loadPlugin] is
    the dynamic [import(...)].  The clipboard plugin works on the system
    clipboard, the one [navigator.clipboard] reads and writes: [writeText]
    also tells what it leaves there, if it writes, and [readText] is given
    what is there. *)
Record Tauri := {
  loadPlugin : PluginModule → Promise unit;
  readTextFile : string → Promise string;
  writeTextFile : string → string → Promise unit;
  sendNotification : string → option string → Promise unit;
  writeText : string → Promise unit * option string;
  readText : string → Promise (option string);
  dialogOpen : option bool → option bool → Promise OpenResult;
  dialogSave : option string → Promise (option string);
  shellOpen : string → Promise unit;
}.

Inductive NotificationPermission := Granted | Denied | Default.

#[global] Instance NotificationPermission_eq_dec : EqDecision NotificationPermission.
Proof. solve_decision. Defined.

Record File := { file_name : string }.

(** What a file picker ends with: the user's selection changed, or the
    picker was dismissed. *)
Inductive PickerEvent :=
  | ChangeEvent (files : list File)
  | CancelEvent.

Record World := {
  __TAURI__ : option Tauri;                  (* window.__TAURI__ *)
  __TAURI_NATIVE__ : option bool;            (* window.__TAURI_NATIVE__ *)
  Notification_in_window : bool;             (* 'Notification' in window *)
  Notification_permission : NotificationPermission;
  permission_answer : NotificationPermission;(* the user's answer to the prompt *)
  clipboard_in_navigator : bool;             (* 'clipboard' in navigator *)
  clipboard_allowed : bool;
  clipboard_text : string;
  localStorage : gmap string string;
  storage_accepts : gmap string string → string → string → bool;
  file_picker : bool → PickerEvent;          (* by the input's [multiple] *)
  prompt_answer : string → string → option string;
  storage_refused : bool;          (* reading window.localStorage throws *)
  Notification_throws : bool;      (* the Notification constructor is illegal *)
  permission_answered : bool;      (* the user answers the permission prompt *)
  url_parses : string → bool;      (* the URLs window.open can parse *)
}.

Definition set_localStorage (m : gmap string string) (w : World) : World :=
  {| __TAURI__ := __TAURI__ w; __TAURI_NATIVE__ := __TAURI_NATIVE__ w;
     Notification_in_window := Notification_in_window w;
     Notification_permission := Notification_permission w;
     permission_answer := permission_answer w;
     clipboard_in_navigator := clipboard_in_navigator w;
     clipboard_allowed := clipboard_allowed w;
     clipboard_text := clipboard_text w;
     localStorage := m;
     storage_accepts := storage_accepts w;
     file_picker := file_picker w;
     prompt_answer := prompt_answer w;
     storage_refused := storage_refused w;
     Notification_throws := Notification_throws w;
     permission_answered := permission_answered w;
     url_parses := url_parses w |}.

Definition set_permission (p : NotificationPermission) (w : World) : World :=
  {| __TAURI__ := __TAURI__ w; __TAURI_NATIVE__ := __TAURI_NATIVE__ w;
     Notification_in_window := Notification_in_window w;
     Notification_permission := p;
     permission_answer := permission_answer w;
     clipboard_in_navigator := clipboard_in_navigator w;
     clipboard_allowed := clipboard_allowed w;
     clipboard_text := clipboard_text w;
     localStorage := localStorage w;
     storage_accepts := storage_accepts w;
     file_picker := file_picker w;
     prompt_answer := prompt_answer w;
     storage_refused := storage_refused w;
     Notification_throws := Notification_throws w;
     permission_answered := permission_answered w;
     url_parses := url_parses w |}.

Definition set_clipboard_text (s : string) (w : World) : World :=
  {| __TAURI__ := __TAURI__ w; __TAURI_NATIVE__ := __TAURI_NATIVE__ w;
     Notification_in_window := Notification_in_window w;
     Notification_permission := Notification_permission w;
     permission_answer := permission_answer w;
     clipboard_in_navigator := clipboard_in_navigator w;
     clipboard_allowed := clipboard_allowed w;
     clipboard_text := s;
     localStorage := localStorage w;
     storage_accepts := storage_accepts w;
     file_picker := file_picker w;
     prompt_answer := prompt_answer w;
     storage_refused := storage_refused w;
     Notification_throws := Notification_throws w;
     permission_answered := permission_answered w;
     url_parses := url_parses w |}.

(** ** Calls on the outside *)

(** The calls the code makes on the browser and on the plugins, listed
    whether they return or throw. *)
Inductive Effect :=
  | EImport (m : PluginModule)
  | EReadTextFile (path : string)
  | EWriteTextFile (path content : string)
  | ESendNotification (title : string) (body : option string)
  | EWriteText (text : string)
  | EReadText
  | EDialogOpen (multiple directory : option bool)
  | EDialogSave (defaultPath : option string)
  | EShellOpen (url : string)
  | EGetItem (key : string)
  | ESetItem (key value : string)
  | ENewNotification (title : string) (body : option string)
  | ERequestPermission
  | EClipboardWriteText (text : string)
  | EClipboardReadText
  | EInputClick (multiple : bool)
  | EPrompt (message default : string)
  | EWindowOpen (url target : string).

(** ** The monad of asynchronous functions *)

#[projections(primitive)] Record Run (A : Type) := MkRun {
  outcome : Promise A;
  after : World;
  effects : list Effect;
}.
Arguments MkRun {A} _ _ _.
Arguments outcome {A} _.
Arguments after {A} _.
Arguments effects {A} _.

Definition Async (A : Type) : Type := World → Run A.

#[global] Instance Async_ret : MRet Async :=
  λ A a w, MkRun (Resolved a) w [].

#[global] Instance Async_bind : MBind Async :=
  λ A B k m w,
    let r := m w in
    match outcome r with
    | Resolved a =>
        let r' := k a (after r) in
        MkRun (outcome r') (after r') (effects r ++ effects r')
    | Rejected e => MkRun (Rejected e) (after r) (effects r)
    | Pending => MkRun Pending (after r) (effects r)
    end.

#[global] Instance Async_fmap : FMap Async :=
  λ A B f m, a ← m; mret (f a).

Definition throw {A} (e : JsError) : Async A :=
  λ w, MkRun (Rejected e) w [].

Definition emit (e : Effect) : Async unit :=
  λ w, MkRun (Resolved tt) w [e].

(** [await p], for a promise handed out by the host. *)
Definition await {A} (p : Promise A) : Async A :=
  λ w, MkRun p w [].

Definition window : Async World :=
  λ w, MkRun (Resolved w) w [].

Definition modify (f : World → World) : Async unit :=
  λ w, MkRun (Resolved tt) (f w) [].

(** ** JavaScript's truthiness, at the types the hook uses *)

(** [!!x] for [x : boolean | undefined]. *)
Definition truthy_flag (x : option bool) : bool :=
  match x with Some b => b | None => false end.

(** [!!x] for [x : object | undefined]: an object is always truthy. *)
Definition truthy_object {A} (x : option A) : bool :=
  match x with Some _ => true | None => false end.

(** [x || d] for [x : string | null | undefined]: the empty string is
    falsy as well. *)
Definition or_string (x : option string) (d : string) : string :=
  match x with
  | Some s => if decide (s = "") then d else s
  | None => d
  end.

(** [x || d] for [x : boolean | undefined]. *)
Definition or_bool (x : option bool) (d : bool) : bool :=
  match x with Some true => true | _ => d end.

(** ** Browser APIs *)

(** [localStorage.getItem(key)].  Where the page is refused storage,
    evaluating it throws a SecurityError. *)
Definition getItem (key : string) : Async (option string) :=
  emit (EGetItem key);;
  w ← window;
  if storage_refused w then throw SecurityError
  else mret (localStorage w !! key).

(** [localStorage.setItem(key, value)]: a SecurityError where the page is
    refused storage; otherwise the store takes the value, or the call
    throws a QuotaExceededError and the store stays as it was. *)
Definition setItem (key value : string) : Async unit :=
  emit (ESetItem key value);;
  w ← window;
  if storage_refused w then throw SecurityError
  else if storage_accepts w (localStorage w) key value
  then modify (set_localStorage (<[key := value]> (localStorage w)))
  else throw QuotaExceededError.

(** [new Notification(title, { body })]; a TypeError where pages may not
    construct notifications. *)
Definition newNotification (title : string) (body : option string) : Async unit :=
  emit (ENewNotification title body);;
  w ← window;
  if Notification_throws w then throw TypeError else mret tt.

(** [Notification.requestPermission()]: the user is asked only while the
    permission is still "default", and the promise then settles when the
    user answers, if ever; otherwise it resolves at once with the
    permission as it stands. *)
Definition requestPermission : Async NotificationPermission :=
  emit ERequestPermission;;
  w ← window;
  match Notification_permission w with
  | Default =>
      if permission_answered w then
        modify (set_permission (permission_answer w));;
        mret (permission_answer w)
      else await Pending
  | p => mret p
  end.

(** [navigator.clipboard.writeText(text)]; [navigator.clipboard] is
    undefined where the browser has no clipboard API. *)
Definition clipboard_writeText (text : string) : Async unit :=
  w ← window;
  if clipboard_in_navigator w then
    emit (EClipboardWriteText text);;
    if clipboard_allowed w then modify (set_clipboard_text text)
    else throw NotAllowedError
  else throw TypeError.

(** [navigator.clipboard.readText()]. *)
Definition clipboard_readText : Async string :=
  w ← window;
  if clipboard_in_navigator w then
    emit EClipboardReadText;;
    if clipboard_allowed w then mret (clipboard_text w)
    else throw NotAllowedError
  else throw TypeError.

(** An [<input>] element made inside [new Promise((resolve) => ...)].  A
    handler is the value it passes to [resolve]; an event for which no
    handler is set settles nothing. *)
Record HTMLInputElement (A : Type) := {
  input_type : string;
  input_multiple : bool;
  onchange : option (list File → A);
  oncancel : option A;
}.
Arguments input_type {A} _.
Arguments input_multiple {A} _.
Arguments onchange {A} _.
Arguments oncancel {A} _.

(** [input.click()] on a file input: the picker opens, and the event it
    ends with goes to the handler set for it, if there is one. *)
Definition input_click {A} (input : HTMLInputElement A) : Async A :=
  emit (EInputClick (input_multiple input));;
  w ← window;
  match file_picker w (input_multiple input) with
  | ChangeEvent files =>
      match onchange input with
      | Some handler => mret (handler files)
      | None => await Pending
      end
  | CancelEvent =>
      match oncancel input with
      | Some a => mret a
      | None => await Pending
      end
  end.

(** [prompt(message, default)]: the text entered, or null on cancel. *)
Definition prompt (message default : string) : Async (option string) :=
  emit (EPrompt message default);;
  w ← window;
  mret (prompt_answer w message default).

(** [window.open(url, target)]; a SyntaxError for a URL that does not
    parse. *)
Definition window_open (url target : string) : Async unit :=
  emit (EWindowOpen url target);;
  w ← window;
  if url_parses w url then mret tt else throw SyntaxError.

(** [await import(module)]. *)
Definition import (t : Tauri) (m : PluginModule) : Async unit :=
  emit (EImport m);;
  await (loadPlugin t m).

(** ** The capability flags *)

Record NativeCapabilities := {
  isNative : bool;
  hasFileSystem : bool;
  hasNotifications : bool;
  hasClipboard : bool;
  hasDialog : bool;
  hasShell : bool;
}.

#[global] Instance NativeCapabilities_eq_dec : EqDecision NativeCapabilities.
Proof. solve_decision. Defined.

(** The argument of [useState]. *)
Definition initialCapabilities : NativeCapabilities :=
  {| isNative := false; hasFileSystem := false; hasNotifications := false;
     hasClipboard := false; hasDialog := false; hasShell := false |}.

(** The value [checkCapabilities] passes to [setCapabilities]. *)
Definition checkCapabilities (w : World) : NativeCapabilities :=
  let isNative := truthy_flag (__TAURI_NATIVE__ w) || truthy_object (__TAURI__ w) in
  {| isNative := isNative;
     hasFileSystem := isNative;
     hasNotifications := isNative || Notification_in_window w;
     hasClipboard := isNative || clipboard_in_navigator w;
     hasDialog := isNative;
     hasShell := isNative |}.

(** A native marker: the flag [__TAURI_NATIVE__] set to true, or the
    injected [__TAURI__] object. *)
Definition native_marker_present (w : World) : Prop :=
  __TAURI_NATIVE__ w = Some true ∨ is_Some (__TAURI__ w).

(** ** The eight operations *)

Definition fileKey (path : string) : string := "zos:file:" +:+ path.

Definition readFile (path : string) : Async string :=
  w ← window;
  match __TAURI__ w with
  | Some t =>
      import t PluginFs;;
      emit (EReadTextFile path);;
      await (readTextFile t path)
  | None =>
      item ← getItem (fileKey path);
      mret (or_string item "")
  end.

Definition writeFile (path content : string) : Async unit :=
  w ← window;
  match __TAURI__ w with
  | Some t =>
      import t PluginFs;;
      emit (EWriteTextFile path content);;
      await (writeTextFile t path content)
  | None => setItem (fileKey path) content
  end.

Definition notify (title : string) (body : option string) : Async unit :=
  w ← window;
  match __TAURI__ w with
  | Some t =>
      import t PluginNotification;;
      emit (ESendNotification title body);;
      await (sendNotification t title body)
  | None =>
      if Notification_in_window w
         && bool_decide (Notification_permission w = Granted)
      then newNotification title body
      else if Notification_in_window w then
        permission ← requestPermission;
        if bool_decide (permission = Granted)
        then newNotification title body
        else mret tt
      else mret tt
  end.

Definition copyToClipboard (text : string) : Async unit :=
  w ← window;
  match __TAURI__ w with
  | Some t =>
      import t PluginClipboardManager;;
      emit (EWriteText text);;
      match (writeText t text).2 with
      | Some held => modify (set_clipboard_text held)
      | None => mret tt
      end;;
      await (writeText t text).1
  | None => clipboard_writeText text
  end.

Definition readFromClipboard : Async string :=
  w ← window;
  match __TAURI__ w with
  | Some t =>
      import t PluginClipboardManager;;
      emit EReadText;;
      text ← await (readText t (clipboard_text w));
      mret (or_string text "")
  | None => clipboard_readText
  end.

Record OpenOptions := { multiple : option bool; directory : option bool }.
Record SaveOptions := { defaultPath : option string }.

(** [!result] on what the dialog plugin's [open] answered. *)
Definition falsy_OpenResult (r : OpenResult) : bool :=
  match r with
  | OpenNull => true
  | OpenPath p => bool_decide (p = "")
  | OpenPaths _ => false
  end.

Definition showOpenDialog (options : option OpenOptions) : Async (list string) :=
  w ← window;
  match __TAURI__ w with
  | Some t =>
      import t PluginDialog;;
      emit (EDialogOpen (options ≫= multiple) (options ≫= directory));;
      result ← await (dialogOpen t (options ≫= multiple) (options ≫= directory));
      if falsy_OpenResult result then mret []
      else mret (match result with
                 | OpenPaths ps => ps
                 | OpenPath p => [p]
                 | OpenNull => []
                 end)
  | None =>
      let input :=
        {| input_type := "file";
           input_multiple := or_bool (options ≫= multiple) false;
           onchange := Some (λ files, file_name <$> files);
           oncancel := None |} in
      input_click input
  end.

Definition showSaveDialog (options : option SaveOptions) : Async (option string) :=
  w ← window;
  match __TAURI__ w with
  | Some t =>
      import t PluginDialog;;
      emit (EDialogSave (options ≫= defaultPath));;
      await (dialogSave t (options ≫= defaultPath))
  | None => prompt "Save as:" (or_string (options ≫= defaultPath) "untitled.txt")
  end.

Definition openExternal (url : string) : Async unit :=
  w ← window;
  match __TAURI__ w with
  | Some t =>
      import t PluginShell;;
      emit (EShellOpen url);;
      await (shellOpen t url)
  | None => window_open url "_blank"
  end.

(** ** Calls, and the provider a call goes to *)

Inductive Operation :=
  | ReadFile (path : string)
  | WriteFile (path content : string)
  | Notify (title : string) (body : option string)
  | CopyToClipboard (text : string)
  | ReadFromClipboard
  | ShowOpenDialog (options : option OpenOptions)
  | ShowSaveDialog (options : option SaveOptions)
  | OpenExternal (url : string).

Inductive Value :=
  | VUndefined
  | VString (s : string)
  | VStrings (l : list string)
  | VStringOrNull (s : option string).

Definition call (op : Operation) : Async Value :=
  match op with
  | ReadFile path => VString <$> readFile path
  | WriteFile path content => (λ _, VUndefined) <$> writeFile path content
  | Notify title body => (λ _, VUndefined) <$> notify title body
  | CopyToClipboard text => (λ _, VUndefined) <$> copyToClipboard text
  | ReadFromClipboard => VString <$> readFromClipboard
  | ShowOpenDialog options => VStrings <$> showOpenDialog options
  | ShowSaveDialog options => VStringOrNull <$> showSaveDialog options
  | OpenExternal url => (λ _, VUndefined) <$> openExternal url
  end.

(** The calls that go to the native host: a plugin import or a plugin
    function. *)
Definition is_native_effect (e : Effect) : bool :=
  match e with
  | EImport _ | EReadTextFile _ | EWriteTextFile _ _ | ESendNotification _ _
  | EWriteText _ | EReadText | EDialogOpen _ _ | EDialogSave _
  | EShellOpen _ => true
  | _ => false
  end.

Inductive Provider := NativeProvider | BrowserProvider.

#[global] Instance Provider_eq_dec : EqDecision Provider.
Proof. solve_decision. Defined.

(** The provider a call made in world [w] goes to: the native one when the
    call touches a plugin, the browser one when it touches none. *)
Definition provider_used (op : Operation) (w : World) : Provider :=
  if existsb is_native_effect (effects (call op w))
  then NativeProvider else BrowserProvider.

(** The provider the flags announce. *)
Definition provider_announced (c : NativeCapabilities) : Provider :=
  if isNative c then NativeProvider else BrowserProvider.

(** ** The hook in a component: a session *)

(** The state React keeps for the hook: the value of [useState], and
    whether the effect registered with the empty dependency list has yet
    to run. *)
Record Hook := {
  capabilities : NativeCapabilities;
  effect_pending : bool;
}.

Record Session := {
  hook : Hook;
  world : World;
}.

(** The first render. *)
Definition mount (w : World) : Session :=
  {| hook := {| capabilities := initialCapabilities; effect_pending := true |};
     world := w |}.

(** The flags a render of [useNative()] returns. *)
Definition useNative (s : Session) : NativeCapabilities :=
  capabilities (hook s).

Inductive Action :=
  | FlushEffects            (* React runs the effects of the first commit *)
  | Render                  (* the component renders again *)
  | Call (op : Operation)   (* the application calls a returned operation *)
  | Outside (w : World).    (* the host, the user or another script acts *)

Definition step (s : Session) (a : Action) : Session :=
  match a with
  | FlushEffects =>
      if effect_pending (hook s)
      then {| hook := {| capabilities := checkCapabilities (world s);
                         effect_pending := false |};
              world := world s |}
      else s
  | Render => s
  | Call op => {| hook := hook s; world := after (call op (world s)) |}
  | Outside w => {| hook := hook s; world := w |}
  end.

Definition run (s : Session) (acts : list Action) : Session :=
  foldl step s acts.

(** The flags seen at every point of a run, the first render included. *)
Fixpoint history (s : Session) (acts : list Action) : list NativeCapabilities :=
  useNative s ::
  match acts with
  | [] => []
  | a :: acts => history (step s a) acts
  end.

(** How often the flags differ from one point to the next. *)
Fixpoint changes (l : list NativeCapabilities) : nat :=
  match l with
  | c :: (c' :: _) as rest => (if decide (c = c') then 0 else 1) + changes rest
  | _ => 0
  end.

Definition is_flush (a : Action) : bool :=
  match a with FlushEffects => true | _ => false end.

Definition is_outside (a : Action) : bool :=
  match a with Outside _ => true | _ => false end.

(** A run in which nothing but the page itself acts. *)
Definition undisturbed (acts : list Action) : bool :=
  forallb (λ a, negb (is_outside a)) acts.

Definition is_write_to (path : string) (a : Action) : bool :=
  match a with
  | Call (WriteFile p _) => bool_decide (p = path)
  | _ => false
  end.

(** ** Frames *)

(** A function stays [within] a relation on worlds and a class of effects
    when, run in [w], it leaves a world related to [w] and makes only
    calls of that class. *)
Definition within (R : World → World → Prop) (allowed : Effect → bool)
    {A} (m : Async A) (w : World) : Prop :=
  R w (after (m w)) ∧ forallb allowed (effects (m w)) = true.

Definition same_markers (w w' : World) : Prop :=
  __TAURI__ w' = __TAURI__ w ∧ __TAURI_NATIVE__ w' = __TAURI_NATIVE__ w.

Definition same_storage (w w' : World) : Prop :=
  localStorage w' = localStorage w.

Definition any_effect (e : Effect) : bool := true.

Definition browser_effect (e : Effect) : bool := negb (is_native_effect e).

(** ** Worlds to evaluate the code in *)

(** The plugin mocks of the test suite: every call resolves, to nothing. *)
Definition mock_tauri : Tauri :=
  {| loadPlugin := λ _, Resolved tt;
     readTextFile := λ _, Resolved "";
     writeTextFile := λ _ _, Resolved tt;
     sendNotification := λ _ _, Resolved tt;
     writeText := λ _, (Resolved tt, None);
     readText := λ _, Resolved (Some "");
     dialogOpen := λ _ _, Resolved OpenNull;
     dialogSave := λ _, Resolved None;
     shellOpen := λ _, Resolved tt |}.

(** A host whose notification plugin rejects. *)
Definition muted_tauri : Tauri :=
  {| loadPlugin := λ _, Resolved tt;
     readTextFile := λ _, Resolved "";
     writeTextFile := λ _ _, Resolved tt;
     sendNotification := λ _ _, Rejected (HostError "notifications are not allowed");
     writeText := λ _, (Resolved tt, None);
     readText := λ _, Resolved (Some "");
     dialogOpen := λ _ _, Resolved OpenNull;
     dialogSave := λ _, Resolved None;
     shellOpen := λ _, Resolved tt |}.

(** A page in a plain browser, as under jsdom: no marker, no Notification
    API, a clipboard, an empty store with room, and a user who dismisses
    every dialog. *)
Definition browser_world : World :=
  {| __TAURI__ := None;
     __TAURI_NATIVE__ := None;
     Notification_in_window := false;
     Notification_permission := Default;
     permission_answer := Denied;
     clipboard_in_navigator := true;
     clipboard_allowed := true;
     clipboard_text := "";
     localStorage := ∅;
     storage_accepts := λ _ _ _, true;
     file_picker := λ _, CancelEvent;
     prompt_answer := λ _ _, None;
     storage_refused := false;
     Notification_throws := false;
     permission_answered := true;
     url_parses := λ _, true |}.

Definition with_markers (t : option Tauri) (n : option bool) (w : World) : World :=
  {| __TAURI__ := t;
     __TAURI_NATIVE__ := n;
     Notification_in_window := Notification_in_window w;
     Notification_permission := Notification_permission w;
     permission_answer := permission_answer w;
     clipboard_in_navigator := clipboard_in_navigator w;
     clipboard_allowed := clipboard_allowed w;
     clipboard_text := clipboard_text w;
     localStorage := localStorage w;
     storage_accepts := storage_accepts w;
     file_picker := file_picker w;
     prompt_answer := prompt_answer w;
     storage_refused := storage_refused w;
     Notification_throws := Notification_throws w;
     permission_answered := permission_answered w;
     url_parses := url_parses w |}.

(** Only the flag [__TAURI_NATIVE__] is set; there is no [__TAURI__]. *)
Definition flag_only_world : World :=
  with_markers None (Some true) browser_world.

(** Inside the shell, with the mocked plugins. *)
Definition tauri_world : World :=
  with_markers (Some mock_tauri) None browser_world.

Definition muted_tauri_world : World :=
  with_markers (Some muted_tauri) None browser_world.

(** ** More of a session: which plugin, and the calls it makes *)

(** The plugin module an operation imports on the native path. *)
Definition plugin_of (op : Operation) : PluginModule :=
  match op with
  | ReadFile _ | WriteFile _ _ => PluginFs
  | Notify _ _ => PluginNotification
  | CopyToClipboard _ | ReadFromClipboard => PluginClipboardManager
  | ShowOpenDialog _ | ShowSaveDialog _ => PluginDialog
  | OpenExternal _ => PluginShell
  end.

(** The calls on the outside made over a run, in order. *)
Fixpoint session_effects (s : Session) (acts : list Action) : list Effect :=
  match acts with
  | [] => []
  | a :: acts =>
      match a with
      | Call op => effects (call op (world s))
      | _ => []
      end ++ session_effects (step s a) acts
  end.

Definition is_new_notification (e : Effect) : bool :=
  match e with ENewNotification _ _ => true | _ => false end.

Definition is_request_permission (e : Effect) : bool :=
  match e with ERequestPermission => true | _ => false end.

Definition same_permission (w w' : World) : Prop :=
  __TAURI__ w' = __TAURI__ w ∧
  Notification_in_window w' = Notification_in_window w ∧
  Notification_permission w' = Notification_permission w.

Definition quiet_effect (e : Effect) : bool :=
  negb (is_new_notification e) && negb (is_request_permission e).

(** ** More worlds *)

(** A host none of whose plugin modules can be loaded. *)
Definition offline_tauri : Tauri :=
  {| loadPlugin := λ _, Rejected (HostError "module not found");
     readTextFile := λ _, Resolved "";
     writeTextFile := λ _ _, Resolved tt;
     sendNotification := λ _ _, Resolved tt;
     writeText := λ _, (Resolved tt, None);
     readText := λ _, Resolved (Some "");
     dialogOpen := λ _ _, Resolved OpenNull;
     dialogSave := λ _, Resolved None;
     shellOpen := λ _, Resolved tt |}.

Definition offline_tauri_world : World :=
  with_markers (Some offline_tauri) None browser_world.

(** A browser without [navigator.clipboard]. *)
Definition without_clipboard (w : World) : World :=
  {| __TAURI__ := __TAURI__ w; __TAURI_NATIVE__ := __TAURI_NATIVE__ w;
     Notification_in_window := Notification_in_window w;
     Notification_permission := Notification_permission w;
     permission_answer := permission_answer w;
     clipboard_in_navigator := false;
     clipboard_allowed := clipboard_allowed w;
     clipboard_text := clipboard_text w;
     localStorage := localStorage w;
     storage_accepts := storage_accepts w;
     file_picker := file_picker w;
     prompt_answer := prompt_answer w;
     storage_refused := storage_refused w;
     Notification_throws := Notification_throws w;
     permission_answered := permission_answered w;
     url_parses := url_parses w |}.

(** A browser with the Notification API, the permission at [p], and a user
    who answers [a] when asked. *)
Definition with_notifications (p a : NotificationPermission) (w : World) : World :=
  {| __TAURI__ := __TAURI__ w; __TAURI_NATIVE__ := __TAURI_NATIVE__ w;
     Notification_in_window := true;
     Notification_permission := p;
     permission_answer := a;
     clipboard_in_navigator := clipboard_in_navigator w;
     clipboard_allowed := clipboard_allowed w;
     clipboard_text := clipboard_text w;
     localStorage := localStorage w;
     storage_accepts := storage_accepts w;
     file_picker := file_picker w;
     prompt_answer := prompt_answer w;
     storage_refused := storage_refused w;
     Notification_throws := Notification_throws w;
     permission_answered := permission_answered w;
     url_parses := url_parses w |}.

(** A user who picks [files] in every file picker. *)
Definition with_selection (files : list File) (w : World) : World :=
  {| __TAURI__ := __TAURI__ w; __TAURI_NATIVE__ := __TAURI_NATIVE__ w;
     Notification_in_window := Notification_in_window w;
     Notification_permission := Notification_permission w;
     permission_answer := permission_answer w;
     clipboard_in_navigator := clipboard_in_navigator w;
     clipboard_allowed := clipboard_allowed w;
     clipboard_text := clipboard_text w;
     localStorage := localStorage w;
     storage_accepts := storage_accepts w;
     file_picker := λ _, ChangeEvent files;
     prompt_answer := prompt_answer w;
     storage_refused := storage_refused w;
     Notification_throws := Notification_throws w;
     permission_answered := permission_answered w;
     url_parses := url_parses w |}.

(** A host whose dialog plugin answers [r] to every [open]. *)
Definition answering_tauri (r : OpenResult) : Tauri :=
  {| loadPlugin := λ _, Resolved tt;
     readTextFile := λ _, Resolved "";
     writeTextFile := λ _ _, Resolved tt;
     sendNotification := λ _ _, Resolved tt;
     writeText := λ _, (Resolved tt, None);
     readText := λ _, Resolved (Some "");
     dialogOpen := λ _ _, Resolved r;
     dialogSave := λ _, Resolved None;
     shellOpen := λ _, Resolved tt |}.

(** The three native-only flags equal [isNative], and [isNative] brings
    the two others with it. *)
Definition coherent (c : NativeCapabilities) : bool :=
  bool_decide (hasFileSystem c = isNative c) &&
  bool_decide (hasDialog c = isNative c) &&
  bool_decide (hasShell c = isNative c) &&
  implb (isNative c) (hasNotifications c && hasClipboard c).

(** ** What the browser refuses *)

Definition same_refusal (w w' : World) : Prop :=
  storage_refused w' = storage_refused w.

(** A browser that refuses the page its storage. *)
Definition refusing_storage (w : World) : World :=
  {| __TAURI__ := __TAURI__ w; __TAURI_NATIVE__ := __TAURI_NATIVE__ w;
     Notification_in_window := Notification_in_window w;
     Notification_permission := Notification_permission w;
     permission_answer := permission_answer w;
     clipboard_in_navigator := clipboard_in_navigator w;
     clipboard_allowed := clipboard_allowed w;
     clipboard_text := clipboard_text w;
     localStorage := localStorage w;
     storage_accepts := storage_accepts w;
     file_picker := file_picker w;
     prompt_answer := prompt_answer w;
     storage_refused := true;
     Notification_throws := Notification_throws w;
     permission_answered := permission_answered w;
     url_parses := url_parses w |}.


(** The calls of the browser fallback of each operation, as the code makes
    them in a world [w]. *)
Definition browser_calls (op : Operation) (w : World) : list Effect :=
  match op with
  | ReadFile path => [EGetItem (fileKey path)]
  | WriteFile path content => [ESetItem (fileKey path) content]
  | Notify title body =>
      if Notification_in_window w then
        match Notification_permission w with
        | Granted => [ENewNotification title body]
        | Denied => [ERequestPermission]
        | Default =>
            if permission_answered w
               && bool_decide (permission_answer w = Granted)
            then [ERequestPermission; ENewNotification title body]
            else [ERequestPermission]
        end
      else []
  | CopyToClipboard text =>
      if clipboard_in_navigator w then [EClipboardWriteText text] else []
  | ReadFromClipboard =>
      if clipboard_in_navigator w then [EClipboardReadText] else []
  | ShowOpenDialog options =>
      [EInputClick (bool_decide (options ≫= multiple = Some true))]
  | ShowSaveDialog options =>
      [EPrompt "Save as:"
         match options ≫= defaultPath with
         | Some p => if decide (p = "") then "untitled.txt" else p
         | None => "untitled.txt"
         end]
  | OpenExternal url => [EWindowOpen url "_blank"]
  end.

(** ** The localStorage of the test suite *)

(** The test suite replaces [window.localStorage] by an object that keeps
    its items in [let store: Record<string, string> = {}], a plain object
    used as a map.  A plain object inherits the members of
    [Object.prototype]; these are their names. *)
Definition Object_prototype : list string :=
  ["constructor"; "__defineGetter__"; "__defineSetter__"; "hasOwnProperty";
   "__lookupGetter__"; "__lookupSetter__"; "isPrototypeOf";
   "propertyIsEnumerable"; "toString"; "valueOf"; "__proto__";
   "toLocaleString"].

(** What [getItem] hands out: a string, null, or a member of
    [Object.prototype] (a function, or the prototype itself). *)
Inductive Item :=
  | ItemString (s : string)
  | ItemNull
  | ItemInherited (name : string).

(** [store[key] || null], on the own properties [store]. *)
Definition mock_getItem (store : gmap string string) (key : string) : Item :=
  match store !! key with
  | Some value => if decide (value = "") then ItemNull else ItemString value
  | None =>
      if bool_decide (key ∈ Object_prototype) then ItemInherited key
      else ItemNull
  end.

(** [store[key] = value]: an own property, except that assigning a string
    to [__proto__] goes to the inherited setter, which ignores it. *)
Definition mock_setItem (store : gmap string string) (key value : string)
    : gmap string string :=
  if decide (key = "__proto__") then store else <[key := value]> store.

(** [delete store[key]]. *)
Definition mock_removeItem (store : gmap string string) (key : string)
    : gmap string string :=
  delete key store.

(** [store = {}]. *)
Definition mock_clear (store : gmap string string) : gmap string string := ∅.

(** [item || d], as [readFile] applies it to what [getItem] hands out. *)
Definition or_item (x : Item) (d : string) : Item :=
  match x with
  | ItemNull => ItemString d
  | _ => x
  end.

(** ** The window component *)

(** [ZWindow] (components/ZWindow.tsx) is a function from its props to a
    tree of React elements.  JavaScript numbers are the binary64 floats. *)
Module ZWindowComponent.

(** [!x] for a number: zero, minus zero and NaN are falsy. *)
Definition falsy_number (x : float) : bool :=
  PrimFloat.is_zero x || PrimFloat.is_nan x.

(** [x || d] for [x : number | undefined]. *)
Definition or_number (x : option float) (d : float) : float :=
  match x with
  | Some v => if falsy_number v then d else v
  | None => d
  end.

Inductive CSSValue :=
  | CSSNumber (n : float)
  | CSSString (s : string).

(** A style object, property by property, in the order written. *)
Definition CSSProperties : Type := list (string * CSSValue).

Fixpoint style_get (style : CSSProperties) (property : string) : option CSSValue :=
  match style with
  | [] => None
  | (p, v) :: style => if decide (p = property) then Some v else style_get style property
  end.

Section Component.
Context {Handler : Type}.

(** Whether a handler, when called, stops the propagation of the event. *)
Context (stops : Handler → bool).

(** The props the code gives to DOM elements. *)
Record ElementProps := {
  el_className : option string;
  el_style : CSSProperties;
  el_onClick : option Handler;
  el_ariaLabel : option string;
}.

#[warnings="-register-all"] Inductive ReactNode :=
  | RNull
  | RUndefined
  | RBoolean (b : bool)
  | RNumber (n : float)
  | RString (s : string)
  | RArray (items : list ReactNode)
  | RElement (type : string) (props : ElementProps) (children : list ReactNode).

Record Size := { width : float; height : float }.
Record Position := { x : float; y : float }.

Record ZWindowProps := {
  title : string;
  children : ReactNode;
  onClose : Handler;
  onFocus : option Handler;
  initialSize : option Size;
  initialPosition : option Position;
  windowType : option string;
  resizable : option bool;
  customControls : ReactNode;       (* [RUndefined] when not given *)
  className : option string;
}.

(** [!!n] for a React node. *)
Definition truthy (n : ReactNode) : bool :=
  match n with
  | RNull | RUndefined => false
  | RBoolean b => b
  | RNumber v => negb (falsy_number v)
  | RString s => negb (bool_decide (s = ""))
  | RArray _ | RElement _ _ _ => true
  end.

(** [a && b]. *)
Definition and_then (a b : ReactNode) : ReactNode :=
  if truthy a then b else a.

Definition plain_props (style : CSSProperties) : ElementProps :=
  {| el_className := None; el_style := style; el_onClick := None;
     el_ariaLabel := None |}.

Definition ZWindow (p : ZWindowProps) : ReactNode :=
  let style : CSSProperties :=
    [("width", CSSNumber (or_number (width <$> initialSize p) 700));
     ("height", CSSNumber (or_number (height <$> initialSize p) 500));
     ("backgroundColor", CSSString "var(--zos-window-bg, #1e1e1e)");
     ("borderRadius", CSSString "10px");
     ("overflow", CSSString "hidden");
     ("display", CSSString "flex");
     ("flexDirection", CSSString "column")] in
  RElement "div"
    {| el_className := Some ("zos-window " +:+ or_string (className p) "");
       el_style := style;
       el_onClick := onFocus p;
       el_ariaLabel := None |}
    [ (* Title Bar *)
      RElement "div"
        (plain_props
           [("height", CSSNumber 38);
            ("backgroundColor", CSSString "var(--zos-titlebar-bg, #2d2d2d)");
            ("display", CSSString "flex");
            ("alignItems", CSSString "center");
            ("padding", CSSString "0 12px");
            ("userSelect", CSSString "none")])
        [ (* Traffic Lights *)
          RElement "div"
            (plain_props [("display", CSSString "flex"); ("gap", CSSNumber 8)])
            [ RElement "button"
                {| el_className := None;
                   el_style :=
                     [("width", CSSNumber 12);
                      ("height", CSSNumber 12);
                      ("borderRadius", CSSString "50%");
                      ("backgroundColor", CSSString "#ff5f57");
                      ("border", CSSString "none");
                      ("cursor", CSSString "pointer")];
                   el_onClick := Some (onClose p);
                   el_ariaLabel := Some "Close" |}
                [];
              RElement "div"
                (plain_props
                   [("width", CSSNumber 12);
                    ("height", CSSNumber 12);
                    ("borderRadius", CSSString "50%");
                    ("backgroundColor", CSSString "#febc2e")])
                [];
              RElement "div"
                (plain_props
                   [("width", CSSNumber 12);
                    ("height", CSSNumber 12);
                    ("borderRadius", CSSString "50%");
                    ("backgroundColor", CSSString "#28c840")])
                [] ];
          (* Title *)
          RElement "div"
            (plain_props
               [("flex", CSSNumber 1);
                ("textAlign", CSSString "center");
                ("color", CSSString "var(--zos-titlebar-text, #fff)");
                ("fontSize", CSSNumber 13);
                ("fontWeight", CSSNumber 500)])
            [RString (title p)];
          (* Custom Controls *)
          and_then (customControls p)
            (RElement "div" (plain_props []) [customControls p]) ];
      (* Content *)
      RElement "div"
        (plain_props [("flex", CSSNumber 1); ("overflow", CSSString "auto")])
        [children p] ].

(** *** Clicks *)

Definition node_children (n : ReactNode) : list ReactNode :=
  match n with
  | RElement _ _ children => children
  | RArray items => items
  | _ => []
  end.

Definition node_onClick (n : ReactNode) : option Handler :=
  match n with
  | RElement _ props _ => el_onClick props
  | _ => None
  end.

Definition node_style (n : ReactNode) : CSSProperties :=
  match n with
  | RElement _ props _ => el_style props
  | _ => []
  end.

Definition node_className (n : ReactNode) : option string :=
  match n with
  | RElement _ props _ => el_className props
  | _ => None
  end.

(** A click on the node reached from [n] along [path] (child numbers, from
    the root): the [onClick] handlers called, in order.  The event goes to
    the target first and then up to each ancestor in turn, until a handler
    stops it.  [None] when the path leads nowhere. *)
Fixpoint click (n : ReactNode) (path : list nat) : option (list Handler) :=
  match path with
  | [] => Some (option_list (node_onClick n))
  | i :: path =>
      child ← node_children n !! i;
      inner ← click child path;
      Some (if existsb stops inner then inner
            else inner ++ option_list (node_onClick n))
  end.

End Component.

Arguments ElementProps : clear implicits.
Arguments ReactNode : clear implicits.
Arguments ZWindowProps : clear implicits.

End ZWindowComponent.

(** * Properties *)

(** ** The scenarios of the test suite *)

Example test_detect_browser :
  useNative (run (mount browser_world) [FlushEffects]) =
  {| isNative := false; hasFileSystem := false; hasNotifications := false;
     hasClipboard := true; hasDialog := false; hasShell := false |}.
Proof. reflexivity. Qed.

Example test_file_fallback :
  outcome ((writeFile "/test/file.txt" "content";; readFile "/test/file.txt")
             browser_world) = Resolved "content".
Proof. vm_compute. reflexivity. Qed.

(** ** Reasoning about asynchronous functions *)

Ltac async :=
  cbv [mbind Async_bind mret Async_ret fmap Async_fmap
       emit window await throw modify] in *;
  cbn [outcome after effects app] in *.

Ltac world_simpl :=
  cbn [set_localStorage set_permission set_clipboard_text
       __TAURI__ __TAURI_NATIVE__ Notification_in_window
       Notification_permission permission_answer clipboard_in_navigator
       clipboard_allowed clipboard_text localStorage storage_accepts
       file_picker prompt_answer storage_refused Notification_throws
       permission_answered url_parses] in *.

Ltac run_cases :=
  repeat (match goal with
          | |- context [match ?x with _ => _ end] =>
              lazymatch x with
              | context [match _ with _ => _ end] => fail
              | _ => destruct x eqn:?
              end
          end;
          cbn [outcome after effects app input_multiple onchange oncancel] in *).

Lemma bind_window {A} (k : World → Async A) (w : World) :
  (window ≫= k) w = k w w.
Proof. reflexivity. Qed.

Lemma fileKey_inj : Inj (=) (=) fileKey.
Proof.
  intros p q H. unfold fileKey in H. cbv [String.append] in H. congruence.
Qed.

Section Within.
Variable R : World → World → Prop.
Variable allowed : Effect → bool.
Hypothesis R_refl : ∀ w, R w w.
Hypothesis R_trans : ∀ w1 w2 w3, R w1 w2 → R w2 w3 → R w1 w3.

Lemma within_ret {A} (a : A) w : within R allowed (mret a) w.
Proof. split; [apply R_refl | reflexivity]. Qed.

Lemma within_throw {A} e w : within R allowed (@throw A e) w.
Proof. split; [apply R_refl | reflexivity]. Qed.

Lemma within_await {A} (p : Promise A) w : within R allowed (await p) w.
Proof. split; [apply R_refl | reflexivity]. Qed.

Lemma within_emit e w : allowed e = true → within R allowed (emit e) w.
Proof. intros He. split; [apply R_refl | cbn; by rewrite He]. Qed.

Lemma within_modify f w : R w (f w) → within R allowed (modify f) w.
Proof. intros Hf. split; [exact Hf | reflexivity]. Qed.

Lemma within_bind {A B} (m : Async A) (k : A → Async B) w :
  within R allowed m w →
  (∀ a, within R allowed (k a) (after (m w))) →
  within R allowed (m ≫= k) w.
Proof.
  intros [Hm Em] Hk. unfold within. async.
  destruct (outcome (m w)) as [a| |]; cbn; [|by split..].
  destruct (Hk a) as [Hka Eka]. split.
  - by eapply R_trans.
  - rewrite forallb_app, Em. exact Eka.
Qed.

Lemma within_window_bind {A} (k : World → Async A) w :
  within R allowed (k w) w → within R allowed (window ≫= k) w.
Proof. unfold within. by rewrite bind_window. Qed.

Lemma within_fmap {A B} (f : A → B) (m : Async A) w :
  within R allowed m w → within R allowed (f <$> m) w.
Proof. intros Hm. apply within_bind; [exact Hm | intros; apply within_ret]. Qed.
End Within.

(** One step of a proof that a function stays within [R] and [allowed]:
    through the monad, and by cases on what the code branches on. *)
Ltac within_step :=
  first
    [ match goal with
      | |- within _ _ (match ?x with _ => _ end) _ => destruct x eqn:?
      end
    | apply within_window_bind
    | apply within_fmap
    | apply within_bind; [ .. | intros ? ]
    | apply within_ret
    | apply within_throw
    | apply within_await
    | apply within_emit
    | apply within_modify ].

Ltac within_side :=
  lazymatch goal with
  | |- within _ _ _ _ => idtac
  | |- _ => solve [ reflexivity | done | intros; hnf in *; intuition congruence ]
  end.

Ltac within_solve :=
  repeat first [ congruence | within_step; try within_side ].

(** ** What the operations leave alone *)

Ltac unfold_call :=
  unfold call, readFile, writeFile, notify, copyToClipboard, readFromClipboard,
    showOpenDialog, showSaveDialog, openExternal, import, getItem, setItem,
    newNotification, requestPermission, clipboard_writeText,
    clipboard_readText, input_click, prompt, window_open.

(** No operation, on either path, touches the two globals. *)
Lemma call_same_markers op w : same_markers w (after (call op w)).
Proof.
  enough (within same_markers any_effect (call op) w) as [H _] by exact H.
  destruct op; unfold_call; within_solve.
Qed.

(** Without [__TAURI__], no operation reaches a plugin. *)
Lemma call_browser_effects op w :
  __TAURI__ w = None → forallb browser_effect (effects (call op w)) = true.
Proof.
  intros Hb.
  enough (within (λ _ _, True) browser_effect (call op) w) as [_ H] by exact H.
  destruct op; unfold_call; within_solve.
Qed.

(** With [__TAURI__], every operation starts by importing a plugin. *)
Lemma call_native_effects op w t :
  __TAURI__ w = Some t → ∃ m rest, effects (call op w) = EImport m :: rest.
Proof.
  intros Hn.
  destruct op; unfold_call; async; rewrite Hn; async;
    repeat (match goal with
            | |- context [match ?p with _ => _ end] => destruct p
            end; cbn);
    eauto.
Qed.

(** The store is written by [writeFile] on the browser path and by
    nothing else. *)
Lemma call_same_storage op w :
  (∀ path content, op = WriteFile path content → is_Some (__TAURI__ w)) →
  localStorage (after (call op w)) = localStorage w.
Proof.
  intros Hop.
  enough (within same_storage any_effect (call op) w) as [H _] by exact H.
  destruct op; try solve [unfold_call; within_solve].
  destruct (Hop _ _ eq_refl) as [t Ht].
  unfold call, writeFile. apply within_fmap; try within_side.
  apply within_window_bind. rewrite Ht. unfold import. within_solve.
Qed.

Lemma writeFile_browser w path content :
  __TAURI__ w = None →
  writeFile path content w =
    if storage_refused w
    then MkRun (Rejected SecurityError) w [ESetItem (fileKey path) content]
    else if storage_accepts w (localStorage w) (fileKey path) content
    then MkRun (Resolved tt)
           (set_localStorage (<[fileKey path := content]> (localStorage w)) w)
           [ESetItem (fileKey path) content]
    else MkRun (Rejected QuotaExceededError) w [ESetItem (fileKey path) content].
Proof.
  intros Hb. unfold writeFile, setItem. rewrite bind_window, Hb. async.
  destruct (storage_refused w); [done|].
  by destruct (storage_accepts _ _ _ _).
Qed.

Lemma readFile_browser w path :
  __TAURI__ w = None →
  readFile path w =
    if storage_refused w
    then MkRun (Rejected SecurityError) w [EGetItem (fileKey path)]
    else MkRun (Resolved (or_string (localStorage w !! fileKey path) ""))
           w [EGetItem (fileKey path)].
Proof.
  intros Hb. unfold readFile, getItem. rewrite bind_window, Hb. async.
  by destruct (storage_refused w).
Qed.

(** [or_string] gives back a stored string as it is: the only falsy
    string is the empty one, which it replaces by the empty string. *)
Lemma or_string_empty_default s : or_string (Some s) "" = s.
Proof. unfold or_string. by case_decide. Qed.

Lemma outcome_fmap {A B} (f : A → B) (m : Async A) w :
  outcome ((f <$> m) w) =
    match outcome (m w) with
    | Resolved a => Resolved (f a)
    | Rejected e => Rejected e
    | Pending => Pending
    end.
Proof. async. by destruct (outcome (m w)). Qed.

Lemma after_fmap {A B} (f : A → B) (m : Async A) w :
  after ((f <$> m) w) = after (m w).
Proof. async. by destruct (outcome (m w)). Qed.

Lemma effects_fmap {A B} (f : A → B) (m : Async A) w :
  effects ((f <$> m) w) = effects (m w).
Proof. async. destruct (outcome (m w)); cbn; [apply app_nil_r | done..]. Qed.

(** A call changes the store at most at the key of the path it writes. *)
Lemma call_storage_other op w k :
  (∀ path content, op = WriteFile path content → k ≠ fileKey path) →
  localStorage (after (call op w)) !! k = localStorage w !! k.
Proof.
  intros Hk. destruct (__TAURI__ w) as [t|] eqn:Ht.
  - rewrite call_same_storage; [done|]. intros. rewrite Ht. by eexists.
  - destruct op; try (rewrite call_same_storage; [done | by intros]).
    cbn [call]. rewrite after_fmap, writeFile_browser by done.
    destruct (storage_refused w); [done|].
    destruct (storage_accepts _ _ _ _); cbn; [|done].
    apply lookup_insert_ne. intros <-. by eapply Hk.
Qed.

Lemma call_storage_changed op w k :
  localStorage (after (call op w)) !! k ≠ localStorage w !! k →
  ∃ path content,
    op = WriteFile path content ∧ k = fileKey path ∧ __TAURI__ w = None ∧
    localStorage (after (call op w)) !! k = Some content.
Proof.
  intros Hne.
  destruct op as [| path content | | | | | |];
    try (exfalso; apply Hne; apply call_storage_other; by intros).
  destruct (decide (k = fileKey path)) as [->|Hk];
    [| exfalso; apply Hne; apply call_storage_other; by intros ?? [= <- <-]].
  destruct (__TAURI__ w) as [t|] eqn:Ht.
  { exfalso. apply Hne. rewrite call_same_storage; [done|].
    intros. rewrite Ht. by eexists. }
  exists path, content. repeat split; try done.
  cbn [call] in *. rewrite after_fmap, writeFile_browser in * by done.
  destruct (storage_refused w); [done|].
  destruct (storage_accepts _ _ _ _); cbn in *; [|done].
  apply lookup_insert_eq.
Qed.

(** ** Sessions *)

Lemma step_settled s a :
  effect_pending (hook s) = false → hook (step s a) = hook s.
Proof. intros H. destruct a; cbn; [by rewrite H | done..]. Qed.

Lemma run_settled s acts :
  effect_pending (hook s) = false → hook (run s acts) = hook s.
Proof.
  revert s. induction acts as [|a acts IH]; intros s H; [done|].
  cbn. rewrite IH; rewrite step_settled; done.
Qed.

Lemma step_no_flush s a : is_flush a = false → hook (step s a) = hook s.
Proof. by destruct a. Qed.

Lemma run_no_flush s acts :
  existsb is_flush acts = false → hook (run s acts) = hook s.
Proof.
  revert s. induction acts as [|a acts IH]; intros s H; [done|].
  cbn in H. apply orb_false_iff in H as [Ha Hacts].
  cbn. rewrite IH by done. by apply step_no_flush.
Qed.

Lemma run_flush_first w acts :
  useNative (run (mount w) (FlushEffects :: acts)) = checkCapabilities w.
Proof. unfold useNative. cbn. by rewrite run_settled. Qed.

Lemma changes_history_cons s a acts :
  changes (history s (a :: acts)) =
    (if decide (useNative s = useNative (step s a)) then 0 else 1)
    + changes (history (step s a) acts).
Proof. by destruct acts. Qed.

Lemma changes_settled s acts :
  effect_pending (hook s) = false → changes (history s acts) = 0.
Proof.
  revert s. induction acts as [|a acts IH]; intros s H; [done|].
  rewrite changes_history_cons, IH by (by rewrite step_settled).
  unfold useNative. rewrite step_settled by done. by case_decide.
Qed.

Lemma changes_at_most_once s acts : changes (history s acts) ≤ 1.
Proof.
  revert s. induction acts as [|a acts IH]; intros s; [cbn; lia|].
  rewrite changes_history_cons.
  destruct (is_flush a) eqn:Ha.
  - destruct a; try done.
    rewrite changes_settled; [case_decide; lia|].
    cbn. by destruct (effect_pending (hook s)) eqn:E.
  - assert (useNative (step s a) = useNative s) as ->
      by (unfold useNative; by rewrite step_no_flush).
    case_decide; [|done]. apply IH.
Qed.

Lemma run_same_markers s acts :
  undisturbed acts = true → same_markers (world s) (world (run s acts)).
Proof.
  revert s. induction acts as [|a acts IH]; intros s H; [done|].
  cbn in H. apply andb_true_iff in H as [Ha Hacts].
  specialize (IH (step s a) Hacts).
  change (run s (a :: acts)) with (run (step s a) acts).
  assert (same_markers (world s) (world (step s a))) as [H1 H2].
  { destruct a; try done; [|apply call_same_markers].
    cbn. by destruct (effect_pending (hook s)). }
  destruct IH as [H3 H4]. split; congruence.
Qed.

Lemma run_storage_key s acts path :
  undisturbed acts = true → existsb (is_write_to path) acts = false →
  localStorage (world (run s acts)) !! fileKey path =
  localStorage (world s) !! fileKey path.
Proof.
  revert s. induction acts as [|a acts IH]; intros s H Hw; [done|].
  cbn in H, Hw. apply andb_true_iff in H as [Ha Hacts].
  apply orb_false_iff in Hw as [Hwa Hwacts].
  cbn. rewrite IH by done.
  destruct a as [| | op | ]; try done.
  - cbn. by destruct (effect_pending (hook s)).
  - cbn. apply call_storage_other. intros p c -> Heq.
    apply fileKey_inj in Heq as ->. cbn in Hwa.
    by rewrite bool_decide_eq_false in Hwa.
Qed.

(** No operation changes whether the page is refused its storage. *)
Lemma call_same_refusal op w : same_refusal w (after (call op w)).
Proof.
  enough (within same_refusal any_effect (call op) w) as [H _] by exact H.
  destruct op; unfold_call; within_solve.
Qed.

Lemma run_same_refusal s acts :
  undisturbed acts = true →
  storage_refused (world (run s acts)) = storage_refused (world s).
Proof.
  revert s. induction acts as [|a acts IH]; intros s H; [done|].
  cbn in H. apply andb_true_iff in H as [Ha Hacts].
  change (run s (a :: acts)) with (run (step s a) acts).
  rewrite IH by done.
  destruct a; try done; [|apply call_same_refusal].
  cbn. by destruct (effect_pending (hook s)).
Qed.

Lemma no_native_effect l :
  forallb browser_effect l = true → existsb is_native_effect l = false.
Proof.
  induction l as [|e l IH]; [done|]. cbn. unfold browser_effect at 1.
  intros [He Hl]%andb_true_iff. apply negb_true_iff in He.
  by rewrite He, IH.
Qed.

(** Which provider a call goes to is decided by [__TAURI__] alone. *)
Lemma provider_used_tauri op w :
  provider_used op w =
    if truthy_object (__TAURI__ w) then NativeProvider else BrowserProvider.
Proof.
  unfold provider_used. destruct (__TAURI__ w) as [t|] eqn:Ht; cbn.
  - destruct (call_native_effects op w t Ht) as (m & rest & ->). done.
  - by rewrite no_native_effect by by apply call_browser_effects.
Qed.

(** Without [__TAURI__], the calls an operation makes are those of its
    browser fallback. *)
Lemma call_browser_calls op w :
  __TAURI__ w = None → effects (call op w) = browser_calls op w.
Proof.
  intros Hb.
  destruct op; unfold_call; unfold browser_calls, or_string, or_bool; async;
    rewrite Hb; async; run_cases; world_simpl;
    repeat (case_bool_decide; cbn in *); try done; try congruence.
  all: try (simplify_eq; done).
Qed.

Lemma showOpenDialog_browser_cancel w options :
  __TAURI__ w = None →
  file_picker w (or_bool (options ≫= multiple) false) = CancelEvent →
  outcome (showOpenDialog options w) = Pending.
Proof.
  intros Hb Hc. unfold showOpenDialog, input_click.
  rewrite bind_window, Hb. async. cbn [input_multiple oncancel].
  by rewrite Hc.
Qed.

(** On the browser path [showOpenDialog] resolves or stays pending; it
    does not reject. *)
Lemma showOpenDialog_browser_never_rejects w options e :
  __TAURI__ w = None → outcome (showOpenDialog options w) ≠ Rejected e.
Proof.
  intros Hb. unfold showOpenDialog, input_click.
  rewrite bind_window, Hb. async. cbn [input_multiple onchange oncancel].
  by destruct (file_picker _ _).
Qed.

(** The native path does turn a dismissed dialog into the empty list. *)
Lemma showOpenDialog_native_cancel w t options :
  __TAURI__ w = Some t → loadPlugin t PluginDialog = Resolved tt →
  dialogOpen t (options ≫= multiple) (options ≫= directory) = Resolved OpenNull →
  outcome (showOpenDialog options w) = Resolved [].
Proof.
  intros Hn Hl Hd. unfold showOpenDialog, import.
  rewrite bind_window, Hn. async. rewrite Hl. cbn. by rewrite Hd.
Qed.

(** * The claims *)

(** ** C1: one provider per session *)

(** C1, as stated, fails on the code.  In a session where only the flag
    [__TAURI_NATIVE__] is set, the detection reports [isNative], yet
    [readFile] goes to the browser provider: the test of the operations is
    not the test that computed [isNative].  And in a session detected as
    browser-only, [readFile] goes to the native provider as soon as
    [__TAURI__] has appeared: the operation probes the environment at each
    call. *)
Lemma provider_not_fixed_at_initialization :
  (let s := run (mount flag_only_world) [FlushEffects] in
   isNative (useNative s) = true ∧
   provider_used (ReadFile "/notes.txt") (world s) = BrowserProvider) ∧
  (let s := run (mount browser_world) [FlushEffects] in
   let s' := run s [Call (ReadFile "/notes.txt"); Outside tauri_world] in
   provider_used (ReadFile "/notes.txt") (world s) = BrowserProvider ∧
   provider_announced (useNative s') = BrowserProvider ∧
   provider_used (ReadFile "/notes.txt") (world s') = NativeProvider).
Proof. vm_compute. repeat split. Qed.

(** C1, amended: every operation picks its provider when it is called, by
    the presence of [__TAURI__] alone in the world of that call, so that
    the eight operations agree with each other in any one world; as no
    operation touches the globals, the provider stays the same through a
    session in which nothing but the page acts; and [isNative], as the
    detection computes it from a world, is the disjunction of the
    truthiness of [__TAURI_NATIVE__] with that same test. *)
Theorem provider_follows_tauri_at_each_call
    (w : World) (acts : list Action) (op : Operation) :
  provider_used op w =
    (if truthy_object (__TAURI__ w) then NativeProvider else BrowserProvider) ∧
  (undisturbed acts = true →
   provider_used op (world (run (mount w) acts)) = provider_used op w) ∧
  isNative (checkCapabilities w) =
    truthy_flag (__TAURI_NATIVE__ w)
    || bool_decide (provider_used op w = NativeProvider).
Proof.
  rewrite !provider_used_tauri. split; [done|]. split.
  - intros Hu. destruct (run_same_markers (mount w) acts Hu) as [H _].
    by rewrite H.
  - cbn. by destruct (__TAURI__ w).
Qed.

Lemma provider_follows_tauri_at_each_call_witness :
  provider_used (CopyToClipboard "text")
    (world (run (mount tauri_world)
              [FlushEffects; Call (ShowOpenDialog None); Render])) =
  provider_used (CopyToClipboard "text") tauri_world.
Proof.
  apply (provider_follows_tauri_at_each_call tauri_world
           [FlushEffects; Call (ShowOpenDialog None); Render]
           (CopyToClipboard "text")).
  reflexivity.
Defined.

(** ** C2: a cancelled file selection *)

(** C2: on the browser path, with a user who dismisses the file picker,
    the promise of [showOpenDialog] is never settled: the code sets
    [onchange] only, and a dismissed picker fires no change event.  The
    claim asks for the empty list. *)
Theorem showOpenDialog_cancel_stays_pending :
  file_picker browser_world false = CancelEvent ∧
  outcome (showOpenDialog None browser_world) = Pending ∧
  effects (showOpenDialog None browser_world) = [EInputClick false].
Proof. repeat split. Qed.

(** ** C3: write, then read *)

(** C3: in a browser-fallback session, [writeFile(P, C)] followed by
    [readFile(P)] returns exactly [C]. *)
Theorem write_then_read_roundtrip (w : World) (path content : string) :
  __TAURI__ w = None →
  outcome (writeFile path content w) = Resolved tt →
  outcome ((writeFile path content;; readFile path) w) = Resolved content.
Proof.
  intros Hb Hw. async. rewrite Hw. cbn.
  rewrite writeFile_browser in * by done.
  destruct (storage_refused w) eqn:Hr; [done|].
  destruct (storage_accepts _ _ _ _); [|done].
  rewrite readFile_browser by done. cbn. rewrite Hr. cbn.
  by rewrite lookup_insert_eq, or_string_empty_default.
Qed.

Lemma write_then_read_roundtrip_witness :
  __TAURI__ browser_world = None ∧
  outcome (writeFile "/test/file.txt" "content" browser_world) = Resolved tt ∧
  outcome ((writeFile "/test/file.txt" "content";; readFile "/test/file.txt")
             browser_world) = Resolved "content".
Proof.
  split; [reflexivity|]. split; [reflexivity|].
  apply (write_then_read_roundtrip browser_world "/test/file.txt" "content");
    reflexivity.
Defined.

(** ** C4 and C5: the flags after detection *)

(** C4: when a native marker is present at initialization, all six flags
    are true from the detection on, whatever the browser supports. *)
Theorem native_marker_sets_every_flag (w : World) (acts : list Action) :
  native_marker_present w →
  useNative (run (mount w) (FlushEffects :: acts)) =
    {| isNative := true; hasFileSystem := true; hasNotifications := true;
       hasClipboard := true; hasDialog := true; hasShell := true |}.
Proof.
  intros Hm. rewrite run_flush_first. unfold checkCapabilities.
  destruct Hm as [-> | [t ->]]; cbn; [done|].
  by rewrite orb_true_r.
Qed.

Lemma native_marker_sets_every_flag_witness :
  native_marker_present flag_only_world ∧
  useNative (run (mount flag_only_world)
               [FlushEffects; Call (Notify "hello" None); Render]) =
    {| isNative := true; hasFileSystem := true; hasNotifications := true;
       hasClipboard := true; hasDialog := true; hasShell := true |}.
Proof.
  split; [by left|].
  apply (native_marker_sets_every_flag flag_only_world
           [Call (Notify "hello" None); Render]).
  by left.
Defined.

(** C5: when no native marker is present at initialization, [isNative],
    [hasFileSystem], [hasDialog] and [hasShell] are false, [hasClipboard]
    is the presence of the browser's clipboard API and [hasNotifications]
    the presence of its Notification API. *)
Theorem no_marker_flags_follow_browser (w : World) (acts : list Action) :
  ¬ native_marker_present w →
  useNative (run (mount w) (FlushEffects :: acts)) =
    {| isNative := false; hasFileSystem := false;
       hasNotifications := Notification_in_window w;
       hasClipboard := clipboard_in_navigator w;
       hasDialog := false; hasShell := false |}.
Proof.
  intros Hm. rewrite run_flush_first. unfold checkCapabilities.
  destruct (__TAURI__ w) as [t|] eqn:Ht.
  { destruct Hm. right. by eexists. }
  destruct (__TAURI_NATIVE__ w) as [[]|] eqn:Hn; cbn; try done.
  destruct Hm. by left.
Qed.

Lemma no_marker_flags_follow_browser_witness :
  ¬ native_marker_present browser_world ∧
  useNative (run (mount browser_world) [FlushEffects; Render]) =
    {| isNative := false; hasFileSystem := false; hasNotifications := false;
       hasClipboard := true; hasDialog := false; hasShell := false |}.
Proof.
  assert (¬ native_marker_present browser_world) as Hm.
  { intros [H | [t H]]; discriminate H. }
  split; [exact Hm|].
  exact (no_marker_flags_follow_browser browser_world [Render] Hm).
Defined.

(** ** C6: reading what was never written *)

(** C6, as stated, fails on the code: where the browser refuses the page
    its storage, [readFile] on a path never written rejects with the
    SecurityError that reading [localStorage] throws; nothing catches
    it. *)
Lemma readFile_rejects_where_storage_is_refused :
  __TAURI__ (refusing_storage browser_world) = None ∧
  localStorage (refusing_storage browser_world) !! fileKey "/never.txt" = None ∧
  outcome (readFile "/never.txt" (refusing_storage browser_world)) =
    Rejected SecurityError.
Proof. repeat split. Qed.

(** C6, amended: in a browser-fallback session, for a path that the store
    does not hold and that no call of the session writes, [readFile]
    resolves to the empty string when the page has access to its storage,
    and rejects with a SecurityError when the browser refuses it. *)
Theorem readFile_never_written (w : World) (path : string) (acts : list Action) :
  __TAURI__ w = None →
  localStorage w !! fileKey path = None →
  undisturbed acts = true →
  existsb (is_write_to path) acts = false →
  outcome (readFile path (world (run (mount w) acts))) =
    if storage_refused w then Rejected SecurityError else Resolved "".
Proof.
  intros Hb Hk Hu Hw.
  destruct (run_same_markers (mount w) acts Hu) as [Ht _].
  rewrite readFile_browser by (by rewrite Ht).
  rewrite run_same_refusal by done. change (world (mount w)) with w.
  destruct (storage_refused w); [done|]. cbn.
  rewrite run_storage_key by done.
  change (world (mount w)) with w. by rewrite Hk.
Qed.

Lemma readFile_never_written_witness :
  outcome (readFile "/never.txt"
             (world (run (mount browser_world)
                       [FlushEffects; Call (WriteFile "/other.txt" "x");
                        Call (ReadFile "/never.txt"); Render]))) =
    Resolved "".
Proof.
  apply (readFile_never_written browser_world "/never.txt");
    vm_compute; reflexivity.
Defined.

(** ** C7: notifications *)

(** C7, as stated, fails on the code: inside the shell, when the
    notification plugin rejects, the promise of [notify] is rejected with
    it. *)
Lemma notify_rejects_with_the_host :
  outcome (notify "Build finished" (Some "0 errors") muted_tauri_world) =
    Rejected (HostError "notifications are not allowed").
Proof. reflexivity. Qed.

(** C7, amended: on the browser path [notify] adds no error of its own,
    and a denied permission is silent.  With the Notification API present
    and the permission granted it constructs the notification at once; with
    the permission undetermined it requests the permission first, stays
    pending as long as the user does not answer, and constructs the
    notification only if the answer is "granted"; with the permission
    denied it constructs nothing and resolves (the request it still makes is
    answered "denied" without a prompt, and the world is left as it was).
    Without the API it does nothing and resolves.  Where it constructs the
    notification it resolves, unless the constructor throws, in which case
    it rejects with that TypeError.  On the native path [notify] settles as
    the import of the plugin and its [sendNotification] do, a rejection
    included. *)
Theorem notify_settles (w : World) (title : string) (body : option string) :
  let r := notify title body w in
  let constructed :=
    if Notification_throws w then Rejected TypeError else Resolved tt in
  match __TAURI__ w with
  | Some t =>
      outcome r =
        match loadPlugin t PluginNotification with
        | Resolved _ => sendNotification t title body
        | Rejected e => Rejected e
        | Pending => Pending
        end
  | None =>
      if Notification_in_window w then
        match Notification_permission w with
        | Granted =>
            effects r = [ENewNotification title body] ∧ after r = w ∧
            outcome r = constructed
        | Default =>
            if permission_answered w then
              effects r =
                ERequestPermission ::
                (if decide (permission_answer w = Granted)
                 then [ENewNotification title body] else []) ∧
              after r = set_permission (permission_answer w) w ∧
              outcome r =
                (if decide (permission_answer w = Granted)
                 then constructed else Resolved tt)
            else
              effects r = [ERequestPermission] ∧ after r = w ∧
              outcome r = Pending
        | Denied =>
            effects r = [ERequestPermission] ∧ after r = w ∧
            outcome r = Resolved tt
        end
      else effects r = [] ∧ after r = w ∧ outcome r = Resolved tt
  end.
Proof.
  unfold notify, import, requestPermission, newNotification.
  cbv zeta. rewrite bind_window.
  destruct (__TAURI__ w) as [t|].
  - async. by destruct (loadPlugin t PluginNotification).
  - destruct (Notification_in_window w); [|done].
    destruct (Notification_permission w) eqn:Hp; async;
      repeat (first [rewrite Hp | case_bool_decide | case_decide
                    | match goal with
                      | |- context [permission_answered w] =>
                          destruct (permission_answered w)
                      | |- context [Notification_throws w] =>
                          destruct (Notification_throws w)
                      end];
              world_simpl; cbn);
      done.
Qed.

(** ** C8: what the file operations write *)

(** C8: on the browser path, a [writeFile(P, C)] that resolves stores the
    string [C] under the key [zos:file:P] and changes no other key;
    [readFile] changes no key; and whatever key any operation changes is a
    key [zos:file:P] that a [writeFile(P, C)] has just set to [C]. *)
Theorem storage_frame (w : World) (path content : string) :
  __TAURI__ w = None →
  outcome (writeFile path content w) = Resolved tt →
  localStorage (after (writeFile path content w)) =
    <[fileKey path := content]> (localStorage w) ∧
  fileKey path = "zos:file:" +:+ path ∧
  (∀ k, k ≠ fileKey path →
        localStorage (after (writeFile path content w)) !! k =
        localStorage w !! k) ∧
  localStorage (after (readFile path w)) = localStorage w ∧
  (∀ op k,
     localStorage (after (call op w)) !! k ≠ localStorage w !! k →
     ∃ path' content',
       op = WriteFile path' content' ∧ k = fileKey path' ∧
       localStorage (after (call op w)) !! k = Some content').
Proof.
  intros Hb Hw.
  rewrite readFile_browser by done.
  rewrite writeFile_browser in * by done.
  destruct (storage_refused w); [done|].
  destruct (storage_accepts _ _ _ _); [|done]. cbn.
  repeat split; try done.
  - intros k Hk. by apply lookup_insert_ne.
  - intros op k Hne.
    destruct (call_storage_changed op w k Hne) as (p & c & ? & ? & _ & ?).
    eauto.
Qed.

Lemma storage_frame_witness :
  localStorage (after (writeFile "/a.txt" "alpha" browser_world)) =
    <[fileKey "/a.txt" := "alpha"]> (localStorage browser_world) ∧
  fileKey "/a.txt" = "zos:file:/a.txt".
Proof.
  destruct (storage_frame browser_world "/a.txt" "alpha")
    as (H1 & H2 & _); [reflexivity | reflexivity |].
  split; [exact H1 | exact H2].
Defined.

(** ** C9: the flag without the object *)

(** C9: in a session where [__TAURI_NATIVE__] is set and [__TAURI__] is
    absent, the six flags are all true, and every operation nevertheless
    takes its browser fallback: the calls it makes are exactly those of the
    fallback ([localStorage.getItem] and [setItem] on the key of the path,
    the Notification API, [navigator.clipboard], the file input, [prompt],
    [window.open(url, '_blank')]), and none of them goes to a plugin. *)
Theorem flag_only_session_uses_browser
    (w : World) (acts : list Action) (op : Operation) :
  __TAURI_NATIVE__ w = Some true →
  __TAURI__ w = None →
  undisturbed acts = true →
  let s := run (mount w) (FlushEffects :: acts) in
  useNative s =
    {| isNative := true; hasFileSystem := true; hasNotifications := true;
       hasClipboard := true; hasDialog := true; hasShell := true |} ∧
  provider_used op (world s) = BrowserProvider ∧
  forallb browser_effect (effects (call op (world s))) = true ∧
  effects (call op (world s)) = browser_calls op (world s).
Proof.
  intros Hn Hb Hu s.
  assert (__TAURI__ (world s) = None) as Hs.
  { subst s.
    destruct (run_same_markers (mount w) (FlushEffects :: acts)) as [H _];
      [exact Hu|]. by rewrite H. }
  split; [|split; [|split]].
  - subst s. rewrite run_flush_first. unfold checkCapabilities.
    by rewrite Hn, Hb.
  - by rewrite provider_used_tauri, Hs.
  - by apply call_browser_effects.
  - by apply call_browser_calls.
Qed.

Lemma flag_only_session_uses_browser_witness :
  provider_used (OpenExternal "https://example.org")
    (world (run (mount flag_only_world)
              [FlushEffects; Call (WriteFile "/a.txt" "alpha")])) =
    BrowserProvider ∧
  effects (call (OpenExternal "https://example.org")
             (world (run (mount flag_only_world)
                       [FlushEffects; Call (WriteFile "/a.txt" "alpha")]))) =
    [EWindowOpen "https://example.org" "_blank"].
Proof.
  destruct (flag_only_session_uses_browser flag_only_world
              [Call (WriteFile "/a.txt" "alpha")]
              (OpenExternal "https://example.org"))
    as (_ & H2 & _ & H4); [reflexivity..|].
  split; [exact H2 | exact H4].
Defined.

(** ** C10: the flags over a session *)

(** C10: the flags [useNative] returns are all false at the first render,
    in every world, and stay so as long as the detection effect has not
    run; a step that is not the first run of that effect leaves the flags
    as they are; and over any run of a session the flags change at most
    once. *)
Theorem flags_change_at_most_once (w : World) (acts : list Action) :
  useNative (mount w) =
    {| isNative := false; hasFileSystem := false; hasNotifications := false;
       hasClipboard := false; hasDialog := false; hasShell := false |} ∧
  (existsb is_flush acts = false →
   useNative (run (mount w) acts) = useNative (mount w)) ∧
  (∀ s a, is_flush a && effect_pending (hook s) = false →
          useNative (step s a) = useNative s) ∧
  changes (history (mount w) acts) ≤ 1.
Proof.
  split; [done|]. split; [|split].
  - intros Hf. unfold useNative. by rewrite run_no_flush.
  - intros s a [Ha|Hp]%andb_false_iff; unfold useNative.
    + by rewrite step_no_flush.
    + by rewrite step_settled.
  - apply changes_at_most_once.
Qed.

Lemma flags_change_at_most_once_witness :
  useNative (run (mount tauri_world)
               [Render; Call (ReadFile "/a.txt"); Outside browser_world]) =
    useNative (mount tauri_world) ∧
  changes (history (mount tauri_world)
             [Render; FlushEffects; Outside browser_world; FlushEffects;
              Render]) ≤ 1.
Proof.
  split.
  - apply (flags_change_at_most_once tauri_world
             [Render; Call (ReadFile "/a.txt"); Outside browser_world]).
    reflexivity.
  - apply (flags_change_at_most_once tauri_world
             [Render; FlushEffects; Outside browser_world; FlushEffects;
              Render]).
Defined.

(** * Beyond the claims *)

(** ** How the operations settle *)



(** X3: on the native path, when the import of the plugin rejects, the
    operation rejects with the same error; it calls no plugin function and
    does not fall back on the browser: the import is the only call made, and
    the world is left as it was. *)
Theorem failed_import_rejects_without_fallback
    (w : World) (t : Tauri) (op : Operation) (e : JsError) :
  __TAURI__ w = Some t →
  loadPlugin t (plugin_of op) = Rejected e →
  outcome (call op w) = Rejected e ∧
  effects (call op w) = [EImport (plugin_of op)] ∧
  after (call op w) = w.
Proof.
  intros Hn Hl.
  destruct op; unfold_call; async; rewrite Hn; async; cbn in Hl; rewrite Hl;
    done.
Qed.

Lemma failed_import_rejects_without_fallback_witness :
  outcome (call (ReadFile "/a.txt") offline_tauri_world) =
    Rejected (HostError "module not found") ∧
  effects (call (ReadFile "/a.txt") offline_tauri_world) = [EImport PluginFs] ∧
  after (call (ReadFile "/a.txt") offline_tauri_world) = offline_tauri_world.
Proof.
  apply (failed_import_rejects_without_fallback offline_tauri_world offline_tauri
           (ReadFile "/a.txt")); reflexivity.
Defined.

(** X4: on the native path the code makes no call on the browser: the
    first call of every operation is the import of its plugin, at most one
    call follows it, and every call goes to a plugin. *)
Theorem native_path_calls_plugins_only
    (w : World) (t : Tauri) (op : Operation) :
  __TAURI__ w = Some t →
  ∃ rest,
    effects (call op w) = EImport (plugin_of op) :: rest ∧
    length rest ≤ 1 ∧
    forallb is_native_effect (effects (call op w)) = true.
Proof.
  intros Hn.
  destruct op; unfold_call; async; rewrite Hn; async; run_cases;
    eexists; (split; [reflexivity|]); cbn; split; (lia || done).
Qed.

Lemma native_path_calls_plugins_only_witness :
  ∃ rest,
    effects (call (WriteFile "/a.txt" "alpha") tauri_world) =
      EImport PluginFs :: rest ∧
    length rest ≤ 1 ∧
    forallb is_native_effect
      (effects (call (WriteFile "/a.txt" "alpha") tauri_world)) = true.
Proof.
  apply (native_path_calls_plugins_only tauri_world mock_tauri
           (WriteFile "/a.txt" "alpha")); reflexivity.
Defined.

(** X21: on the browser path a call changes the world (the store, the
    clipboard, the notification permission) only if it is a [writeFile] or
    a [copyToClipboard] that resolves, or a [notify] made while the
    permission is undetermined and the user answers the prompt.  The other
    operations leave it as it was, and so does every [writeFile] and
    [copyToClipboard] that rejects. *)
Theorem world_changes_only_by (w : World) (op : Operation) :
  __TAURI__ w = None →
  after (call op w) ≠ w →
  (∃ path content,
     op = WriteFile path content ∧
     outcome (call op w) = Resolved VUndefined) ∨
  (∃ text,
     op = CopyToClipboard text ∧ outcome (call op w) = Resolved VUndefined) ∨
  (∃ title body,
     op = Notify title body ∧ Notification_in_window w = true ∧
     Notification_permission w = Default ∧ permission_answered w = true).
Proof.
  intros Hb.
  destruct op; unfold_call; async; rewrite Hb; async; run_cases; intros H;
    try done; eauto 10.
Qed.

Lemma world_changes_only_by_witness :
  outcome (call (WriteFile "/a.txt" "alpha") browser_world) =
    Resolved VUndefined.
Proof.
  destruct (world_changes_only_by browser_world (WriteFile "/a.txt" "alpha"))
    as [(p & c & _ & H) | [(t & H & _) | (t & b & H & _)]];
    [reflexivity | | exact H | discriminate H | discriminate H].
  intros H.
  apply (f_equal (λ w, localStorage w !! fileKey "/a.txt")) in H.
  vm_compute in H. discriminate H.
Defined.

(** ** The clipboard *)

(** X5: on the browser path, with a clipboard the browser lets the page
    use, [copyToClipboard] followed by [readFromClipboard] returns the text
    copied, the empty string included; the two make one clipboard write,
    with that text, and one clipboard read. *)
Theorem clipboard_roundtrip (w : World) (text : string) :
  __TAURI__ w = None →
  clipboard_in_navigator w = true →
  clipboard_allowed w = true →
  outcome ((copyToClipboard text;; readFromClipboard) w) = Resolved text ∧
  effects ((copyToClipboard text;; readFromClipboard) w) =
    [EClipboardWriteText text; EClipboardReadText].
Proof.
  intros Hb Hc Ha. unfold_call. async.
  repeat (first [rewrite Hb | rewrite Hc | rewrite Ha]; async; world_simpl).
  done.
Qed.

Lemma clipboard_roundtrip_witness :
  outcome ((copyToClipboard "test text";; readFromClipboard) browser_world) =
    Resolved "test text" ∧
  effects ((copyToClipboard "test text";; readFromClipboard) browser_world) =
    [EClipboardWriteText "test text"; EClipboardReadText].
Proof.
  apply (clipboard_roundtrip browser_world "test text"); reflexivity.
Defined.

(** X6: without [__TAURI__], the flag [hasClipboard] computed from a world
    promises too much exactly when [__TAURI_NATIVE__] is set and the browser
    has no [navigator.clipboard]: then the flag is true and
    [copyToClipboard] rejects with a TypeError.  A false flag is always
    right: [copyToClipboard] then rejects with a TypeError. *)
Theorem hasClipboard_and_the_clipboard (w : World) (text : string) :
  __TAURI__ w = None →
  ((hasClipboard (checkCapabilities w) = true ∧
    outcome (copyToClipboard text w) = Rejected TypeError) ↔
   (__TAURI_NATIVE__ w = Some true ∧ clipboard_in_navigator w = false)) ∧
  (hasClipboard (checkCapabilities w) = false →
   outcome (copyToClipboard text w) = Rejected TypeError).
Proof.
  intros Hb. unfold checkCapabilities, copyToClipboard, clipboard_writeText.
  rewrite bind_window, Hb. async.
  destruct (__TAURI_NATIVE__ w) as [[]|], (clipboard_in_navigator w),
    (clipboard_allowed w); cbn; intuition congruence.
Qed.

Lemma hasClipboard_and_the_clipboard_witness :
  hasClipboard (checkCapabilities (without_clipboard flag_only_world)) = true ∧
  outcome (copyToClipboard "text" (without_clipboard flag_only_world)) =
    Rejected TypeError.
Proof.
  apply (hasClipboard_and_the_clipboard (without_clipboard flag_only_world) "text");
    [reflexivity|]. split; reflexivity.
Defined.

(** ** The dialogs *)

(** X7: on the browser path [showSaveDialog] asks with one [prompt] titled
    "Save as:" and resolves to its answer, so to null when the user
    cancels; it changes nothing.  The name it suggests is never empty: the
    [defaultPath] given when there is a non-empty one, "untitled.txt"
    otherwise. *)
Theorem showSaveDialog_browser (w : World) (options : option SaveOptions) :
  __TAURI__ w = None →
  ∃ suggested,
    effects (showSaveDialog options w) = [EPrompt "Save as:" suggested] ∧
    outcome (showSaveDialog options w) =
      Resolved (prompt_answer w "Save as:" suggested) ∧
    after (showSaveDialog options w) = w ∧
    suggested ≠ "" ∧
    suggested =
      match options ≫= defaultPath with
      | Some p => if decide (p = "") then "untitled.txt" else p
      | None => "untitled.txt"
      end.
Proof.
  intros Hb. unfold showSaveDialog, prompt. rewrite bind_window, Hb.
  eexists. repeat split. unfold or_string.
  destruct (options ≫= defaultPath) as [p|]; [|done]. by case_decide.
Qed.

Lemma showSaveDialog_browser_witness :
  ∃ suggested,
    effects (showSaveDialog (Some {| defaultPath := Some "" |}) browser_world) =
      [EPrompt "Save as:" suggested] ∧
    outcome (showSaveDialog (Some {| defaultPath := Some "" |}) browser_world) =
      Resolved None ∧
    suggested = "untitled.txt".
Proof.
  destruct (showSaveDialog_browser browser_world
              (Some {| defaultPath := Some "" |}))
    as (suggested & H1 & H2 & _ & _ & H5); [reflexivity|].
  exists suggested. split; [exact H1|]. split; [exact H2 | exact H5].
Defined.

(** X8: on the browser path, when the user selects files, [showOpenDialog]
    resolves to their names, in order; the picker allows several files only
    if [options.multiple] is true; and the option [directory] is not
    looked at. *)
Theorem showOpenDialog_browser_selection
    (w : World) (options : option OpenOptions) (files : list File) :
  __TAURI__ w = None →
  file_picker w (or_bool (options ≫= multiple) false) = ChangeEvent files →
  outcome (showOpenDialog options w) = Resolved (file_name <$> files) ∧
  effects (showOpenDialog options w) =
    [EInputClick (bool_decide (options ≫= multiple = Some true))] ∧
  after (showOpenDialog options w) = w ∧
  (∀ m d d',
     showOpenDialog (Some {| multiple := m; directory := d |}) w =
     showOpenDialog (Some {| multiple := m; directory := d' |}) w).
Proof.
  intros Hb Hf. unfold showOpenDialog, input_click.
  rewrite !bind_window, Hb. async.
  cbn [input_multiple onchange oncancel]. rewrite Hf.
  repeat split.
  - by destruct options as [[[[]|] ?]|].
  - intros m d d'. by rewrite Hb.
Qed.

Lemma showOpenDialog_browser_selection_witness :
  outcome (showOpenDialog (Some {| multiple := Some true; directory := None |})
             (with_selection [{| file_name := "a.txt" |}; {| file_name := "b.txt" |}]
                browser_world)) =
    Resolved ["a.txt"; "b.txt"].
Proof.
  apply (showOpenDialog_browser_selection
           (with_selection [{| file_name := "a.txt" |}; {| file_name := "b.txt" |}]
              browser_world)
           (Some {| multiple := Some true; directory := None |})
           [{| file_name := "a.txt" |}; {| file_name := "b.txt" |}]);
    reflexivity.
Defined.

(** X9: on the native path, once the dialog plugin has answered,
    [showOpenDialog] resolves to a list: empty for null, the path alone for
    one path, the array as it is for an array.  A single path that is the
    empty string counts as no answer and gives the empty list.  Both
    options are handed to the plugin. *)
Theorem showOpenDialog_native_result
    (w : World) (t : Tauri) (options : option OpenOptions) (r : OpenResult) :
  __TAURI__ w = Some t →
  loadPlugin t PluginDialog = Resolved tt →
  dialogOpen t (options ≫= multiple) (options ≫= directory) = Resolved r →
  outcome (showOpenDialog options w) =
    Resolved match r with
             | OpenNull => []
             | OpenPath p => if decide (p = "") then [] else [p]
             | OpenPaths ps => ps
             end ∧
  effects (showOpenDialog options w) =
    [EImport PluginDialog;
     EDialogOpen (options ≫= multiple) (options ≫= directory)].
Proof.
  intros Hn Hl Hd. unfold showOpenDialog, import.
  rewrite bind_window, Hn. async. rewrite Hl. cbn. rewrite Hd.
  destruct r as [|p|ps]; cbn; try done.
  case_bool_decide; case_decide; done.
Qed.

Lemma showOpenDialog_native_result_witness :
  outcome (showOpenDialog None
             (with_markers (Some (answering_tauri (OpenPath ""))) None
                browser_world)) = Resolved [].
Proof.
  apply (showOpenDialog_native_result
           (with_markers (Some (answering_tauri (OpenPath ""))) None browser_world)
           (answering_tauri (OpenPath "")) None (OpenPath ""));
    reflexivity.
Defined.

(** ** Notifications over a session *)

Lemma forallb_weaken {A} (f g : A → bool) (l : list A) :
  (∀ a, f a = true → g a = true) → forallb f l = true → forallb g l = true.
Proof.
  intros Hfg. induction l as [|a l IH]; [done|]. cbn.
  intros [Ha Hl]%andb_true_iff. by rewrite Hfg, IH.
Qed.

(** With the permission decided, a call leaves it as it is; it constructs
    a notification only if the permission is granted, and requests the
    permission only if it is denied. *)
Lemma call_decided_permission op w :
  Notification_permission w ≠ Default →
  same_permission w (after (call op w)) ∧
  forallb (λ e, negb (is_new_notification e)
                || bool_decide (Notification_permission w = Granted))
    (effects (call op w)) = true ∧
  forallb (λ e, negb (is_request_permission e)
                || bool_decide (Notification_permission w = Denied))
    (effects (call op w)) = true.
Proof.
  intros Hp.
  assert (within same_permission quiet_effect (call op) w →
          same_permission w (after (call op w)) ∧
          forallb (λ e, negb (is_new_notification e)
                        || bool_decide (Notification_permission w = Granted))
            (effects (call op w)) = true ∧
          forallb (λ e, negb (is_request_permission e)
                        || bool_decide (Notification_permission w = Denied))
            (effects (call op w)) = true) as Hq.
  { intros [HR HE]. split; [done|].
    split; (eapply forallb_weaken; [|exact HE]); unfold quiet_effect;
      intros e [H1 H2]%andb_true_iff; by rewrite ?H1, ?H2. }
  destruct op; try (apply Hq; unfold_call; by within_solve).
  destruct (__TAURI__ w) as [t|] eqn:Ht.
  { apply Hq. unfold call, notify, import. apply within_fmap; try within_side.
    apply within_window_bind. rewrite Ht. by within_solve. }
  clear Hq. unfold same_permission.
  unfold_call; async; rewrite Ht; async.
  destruct (Notification_in_window w) eqn:Hw,
    (Notification_permission w) eqn:Hq; try done;
    repeat (first [rewrite Hq | rewrite Hw | rewrite Ht | case_bool_decide
                  | match goal with
                    | |- context [Notification_throws w] =>
                        destruct (Notification_throws w)
                    end];
            cbn);
    done.
Qed.

Lemma run_decided_permission s acts :
  Notification_permission (world s) ≠ Default →
  undisturbed acts = true →
  Notification_permission (world (run s acts)) = Notification_permission (world s) ∧
  forallb (λ e, negb (is_new_notification e)
                || bool_decide (Notification_permission (world s) = Granted))
    (session_effects s acts) = true ∧
  forallb (λ e, negb (is_request_permission e)
                || bool_decide (Notification_permission (world s) = Denied))
    (session_effects s acts) = true.
Proof.
  revert s. induction acts as [|a acts IH]; intros s Hp Hu; [done|].
  cbn in Hu. apply andb_true_iff in Hu as [Ha Hu].
  change (run s (a :: acts)) with (run (step s a) acts).
  assert (Notification_permission (world (step s a)) =
          Notification_permission (world s)) as Hs.
  { destruct a; try done.
    - cbn. by destruct (effect_pending (hook s)).
    - by destruct (call_decided_permission op (world s) Hp) as [(_ & _ & H) _]. }
  destruct (IH (step s a)) as (H1 & H2 & H3); [by rewrite Hs | done |].
  rewrite Hs in H1, H2, H3. split; [done|].
  cbn [session_effects]. rewrite !forallb_app, H2, H3, !andb_true_r.
  destruct a; try done.
  by destruct (call_decided_permission op (world s) Hp) as (_ & ? & ?).
Qed.

Lemma run_same_permission s acts :
  Notification_permission (world s) ≠ Default →
  undisturbed acts = true →
  same_permission (world s) (world (run s acts)).
Proof.
  revert s. induction acts as [|a acts IH]; intros s Hd Hu; [done|].
  cbn in Hu. apply andb_true_iff in Hu as [Ha Hu].
  change (run s (a :: acts)) with (run (step s a) acts).
  assert (same_permission (world s) (world (step s a))) as (E1 & E2 & E3).
  { destruct a; try done.
    - cbn. by destruct (effect_pending (hook s)).
    - by destruct (call_decided_permission op (world s) Hd) as [? _]. }
  destruct (IH (step s a)) as (F1 & F2 & F3); [by rewrite E3 | done |].
  unfold same_permission. by rewrite F1, F2, F3.
Qed.

(** X10: once the notification permission is denied, no call of the
    session constructs a notification, whatever is called and in whatever
    order, and the permission stays denied. *)
Theorem denied_permission_silences_session (w : World) (acts : list Action) :
  Notification_permission w = Denied →
  undisturbed acts = true →
  forallb (λ e, negb (is_new_notification e)) (session_effects (mount w) acts)
    = true ∧
  Notification_permission (world (run (mount w) acts)) = Denied.
Proof.
  intros Hp Hu.
  destruct (run_decided_permission (mount w) acts) as (H1 & H2 & _);
    [cbn; by rewrite Hp | done |].
  cbn [mount world] in H1, H2. rewrite Hp in H1, H2. split; [|done].
  eapply forallb_weaken; [|exact H2]. cbn. intros e. by rewrite orb_false_r.
Qed.

Lemma denied_permission_silences_session_witness :
  forallb (λ e, negb (is_new_notification e))
    (session_effects (mount (with_notifications Denied Granted browser_world))
       [FlushEffects; Call (Notify "one" None); Call (Notify "two" (Some "2"))])
    = true.
Proof.
  apply (denied_permission_silences_session
           (with_notifications Denied Granted browser_world)
           [FlushEffects; Call (Notify "one" None);
            Call (Notify "two" (Some "2"))]); reflexivity.
Defined.

(** X11: once the notification permission is granted, no call of the
    session requests it again, and on the browser path every [notify]
    constructs its notification at once. *)
Theorem granted_permission_never_asks
    (w : World) (acts : list Action) (title : string) (body : option string) :
  Notification_permission w = Granted →
  undisturbed acts = true →
  forallb (λ e, negb (is_request_permission e)) (session_effects (mount w) acts)
    = true ∧
  (__TAURI__ w = None → Notification_in_window w = true →
   effects (notify title body (world (run (mount w) acts))) =
     [ENewNotification title body]).
Proof.
  intros Hp Hu.
  destruct (run_decided_permission (mount w) acts) as (H1 & _ & H3);
    [cbn; by rewrite Hp | done |].
  cbn [mount world] in H1, H3. rewrite Hp in H1, H3. split.
  { eapply forallb_weaken; [|exact H3]. cbn. intros e. by rewrite orb_false_r. }
  intros Hb Hw.
  destruct (run_same_permission (mount w) acts) as (Ht & Hn & _);
    [cbn; by rewrite Hp | done |].
  cbn [mount world] in Ht, Hn.
  unfold notify, newNotification. rewrite bind_window, Ht, Hb, Hn, Hw, H1.
  async.
  repeat (first [case_bool_decide
                | match goal with
                  | |- context [Notification_throws ?x] =>
                      destruct (Notification_throws x)
                  end];
          cbn);
  done.
Qed.

Lemma granted_permission_never_asks_witness :
  forallb (λ e, negb (is_request_permission e))
    (session_effects (mount (with_notifications Granted Denied browser_world))
       [Call (Notify "one" None); FlushEffects; Call (Notify "two" None)])
    = true.
Proof.
  apply (granted_permission_never_asks
           (with_notifications Granted Denied browser_world)
           [Call (Notify "one" None); FlushEffects; Call (Notify "two" None)]
           "three" None); reflexivity.
Defined.

(** ** Files over a session *)

Lemma run_app s acts acts' : run s (acts ++ acts') = run (run s acts) acts'.
Proof. apply foldl_app. Qed.

Lemma undisturbed_app acts acts' :
  undisturbed (acts ++ acts') = undisturbed acts && undisturbed acts'.
Proof. apply forallb_app. Qed.

(** X12: in a browser-fallback session, [readFile(P)] returns the content of
    the last [writeFile(P, C)] that resolved: what was written to [P]
    before does not matter, and neither do the calls made since, as long as
    none of them writes to [P]. *)
Theorem last_write_wins
    (w : World) (before since : list Action) (path content : string) :
  __TAURI__ w = None →
  undisturbed before = true →
  undisturbed since = true →
  existsb (is_write_to path) since = false →
  outcome (writeFile path content (world (run (mount w) before))) = Resolved tt →
  outcome (readFile path
             (world (run (mount w)
                       (before ++ Call (WriteFile path content) :: since)))) =
    Resolved content.
Proof.
  intros Hb Hu1 Hu2 Hw Hr.
  rewrite run_app.
  destruct (run_same_markers (mount w) before Hu1) as [Hs _].
  change (world (mount w)) with w in Hs. rewrite Hb in Hs.
  revert Hr Hs. generalize (run (mount w) before). intros s Hr Hs.
  change (run s (Call (WriteFile path content) :: since))
    with (run (step s (Call (WriteFile path content))) since).
  assert (__TAURI__ (world (step s (Call (WriteFile path content)))) = None ∧
          storage_refused (world (step s (Call (WriteFile path content))))
            = false ∧
          localStorage (world (step s (Call (WriteFile path content))))
            !! fileKey path = Some content) as (Hs' & Hf & Hk).
  { cbn [step world call]. rewrite after_fmap.
    rewrite writeFile_browser in * by done.
    destruct (storage_refused (world s)) eqn:Hf; [done|].
    destruct (storage_accepts _ _ _ _); [|done]. cbn.
    repeat split; [done.. | apply lookup_insert_eq]. }
  revert Hs' Hf Hk. generalize (step s (Call (WriteFile path content))).
  intros s' Hs' Hf Hk.
  destruct (run_same_markers s' since Hu2) as [Ht _].
  rewrite readFile_browser by (by rewrite Ht).
  rewrite run_same_refusal, Hf by done.
  cbn. rewrite run_storage_key by done.
  by rewrite Hk, or_string_empty_default.
Qed.

Lemma last_write_wins_witness :
  outcome (readFile "/a.txt"
             (world (run (mount browser_world)
                       ([FlushEffects; Call (WriteFile "/a.txt" "old")] ++
                        Call (WriteFile "/a.txt" "new") ::
                        [Call (WriteFile "/b.txt" "other");
                         Call (ReadFile "/a.txt")])))) =
    Resolved "new".
Proof.
  apply (last_write_wins browser_world
           [FlushEffects; Call (WriteFile "/a.txt" "old")]
           [Call (WriteFile "/b.txt" "other"); Call (ReadFile "/a.txt")]
           "/a.txt" "new"); vm_compute; reflexivity.
Defined.

(** ** The flags over a session, again *)

(** X13: the flags are a snapshot of the world at the moment the detection
    effect first runs: what the world was at the first render, and what it
    becomes afterwards, does not show in them. *)
Theorem flags_are_a_snapshot (w : World) (before since : list Action) :
  existsb is_flush before = false →
  useNative (run (mount w) (before ++ FlushEffects :: since)) =
    checkCapabilities (world (run (mount w) before)).
Proof.
  intros Hf. rewrite run_app. unfold useNative.
  change (run ?s (FlushEffects :: since))
    with (run (step s FlushEffects) since).
  rewrite run_settled; cbn [step]; rewrite (run_no_flush _ _ Hf); done.
Qed.

Lemma flags_are_a_snapshot_witness :
  useNative (run (mount browser_world)
               ([Render; Outside tauri_world] ++
                FlushEffects :: [Outside browser_world; FlushEffects])) =
    checkCapabilities tauri_world.
Proof.
  apply (flags_are_a_snapshot browser_world [Render; Outside tauri_world]
           [Outside browser_world; FlushEffects]).
  reflexivity.
Defined.

Lemma run_coherent (s : Session) (acts : list Action) :
  coherent (useNative s) = true →
  coherent (useNative (run s acts)) = true.
Proof.
  revert s. induction acts as [|a acts IH]; intros s Hs; [done|].
  change (run s (a :: acts)) with (run (step s a) acts). apply IH.
  destruct a; try done. unfold useNative. cbn.
  destruct (effect_pending (hook s)); [|done]. cbn.
  unfold coherent, checkCapabilities. cbn.
  by destruct (truthy_flag _), (truthy_object _).
Qed.

(** X14: at every point of every session, whatever the world is and
    whatever it becomes, the three flags [hasFileSystem], [hasDialog] and
    [hasShell] equal [isNative], and [isNative] implies [hasNotifications]
    and [hasClipboard]. *)
Theorem flags_stay_coherent (w : World) (acts : list Action) :
  let c := useNative (run (mount w) acts) in
  hasFileSystem c = isNative c ∧
  hasDialog c = isNative c ∧
  hasShell c = isNative c ∧
  implb (isNative c) (hasNotifications c && hasClipboard c) = true.
Proof.
  intros c.
  assert (coherent c = true) as H by (by apply run_coherent).
  unfold coherent in H.
  repeat (apply andb_true_iff in H as [H ?]).
  repeat split; try done; by eapply bool_decide_eq_true_1.
Qed.

(** ** The plugin mocks *)

(** X15: with the plugin mocks of the test suite in place of the plugins,
    every operation resolves on the native path: [readFile] and
    [readFromClipboard] to the empty string, [showOpenDialog] to the empty
    list, [showSaveDialog] to null, the others to nothing; and the world is
    left as it was. *)
Theorem mocked_plugins_resolve (w : World) (op : Operation) :
  __TAURI__ w = Some mock_tauri →
  outcome (call op w) =
    Resolved match op with
             | ReadFile _ | ReadFromClipboard => VString ""
             | ShowOpenDialog _ => VStrings []
             | ShowSaveDialog _ => VStringOrNull None
             | _ => VUndefined
             end ∧
  after (call op w) = w.
Proof. intros Hn. destruct op; unfold_call; async; rewrite Hn; done. Qed.

Lemma mocked_plugins_resolve_witness :
  outcome (call (ShowOpenDialog None) tauri_world) = Resolved (VStrings []) ∧
  after (call (ShowOpenDialog None) tauri_world) = tauri_world.
Proof.
  apply (mocked_plugins_resolve tauri_world (ShowOpenDialog None)).
  reflexivity.
Defined.

(** ** The localStorage of the test suite *)

Lemma fileKey_not_inherited path :
  (fileKey path ∉ Object_prototype) ∧ (fileKey path ≠ "__proto__").
Proof.
  unfold fileKey, Object_prototype. cbv [String.append]. split; [|done].
  intros H. repeat (apply elem_of_cons in H as [H|H]; [discriminate H|]).
  by apply elem_of_nil in H.
Qed.

(** X16: the mocked [getItem] gives back what [setItem] stored under a key,
    except that an empty string comes back as null; items under other keys
    are as before.  The key [__proto__] is the exception: nothing can be
    stored under it. *)
Theorem mock_getItem_after_setItem
    (store : gmap string string) (key value other : string) :
  key ≠ "__proto__" →
  mock_getItem (mock_setItem store key value) key =
    (if decide (value = "") then ItemNull else ItemString value) ∧
  (other ≠ key →
   mock_getItem (mock_setItem store key value) other = mock_getItem store other) ∧
  mock_setItem store "__proto__" value = store.
Proof.
  intros Hk. unfold mock_getItem, mock_setItem.
  rewrite decide_False by done. rewrite lookup_insert_eq.
  split; [done|]. split; [|done].
  intros Ho. by rewrite lookup_insert_ne.
Qed.

Lemma mock_getItem_after_setItem_witness :
  mock_getItem (mock_setItem ∅ "key1" "") "key1" = ItemNull.
Proof.
  apply (mock_getItem_after_setItem ∅ "key1" "" "key2"). done.
Defined.

(** X17: for a key that was removed, or after [clear], the mocked
    [getItem] answers null, unless the key is the name of a member of
    [Object.prototype]: then it answers that member. *)
Theorem mock_getItem_missing (store : gmap string string) (key : string) :
  mock_getItem (mock_removeItem store key) key =
    (if bool_decide (key ∈ Object_prototype) then ItemInherited key
     else ItemNull) ∧
  mock_getItem (mock_clear store) key =
    (if bool_decide (key ∈ Object_prototype) then ItemInherited key
     else ItemNull) ∧
  (mock_getItem (mock_removeItem store key) key = ItemNull ↔
   key ∉ Object_prototype).
Proof.
  unfold mock_getItem, mock_removeItem, mock_clear.
  rewrite lookup_delete_eq, lookup_empty.
  repeat split; try done; case_bool_decide; done.
Qed.

(** X18: for the keys of [readFile] and [writeFile] the mocked store
    behaves as the browser's: what [writeFile] stores with the mocked
    [setItem], [readFile] reads back with the mocked [getItem], the empty
    string included, as [|| ''] makes up for the null; and reading any path
    gives what is stored under its key, or the empty string. *)
Theorem mock_store_serves_files
    (store : gmap string string) (path content : string) :
  or_item (mock_getItem (mock_setItem store (fileKey path) content)
             (fileKey path)) "" = ItemString content ∧
  or_item (mock_getItem store (fileKey path)) "" =
    ItemString (or_string (store !! fileKey path) "") ∧
  mock_setItem store (fileKey path) content =
    <[fileKey path := content]> store.
Proof.
  destruct (fileKey_not_inherited path) as [Hi Hp].
  unfold mock_getItem, mock_setItem, or_string.
  rewrite decide_False by done. rewrite lookup_insert_eq.
  rewrite bool_decide_eq_false_2 by done.
  split; [by (case_decide; subst)|]. split; [|done].
  destruct (store !! fileKey path) as [v|]; [|done]. by case_decide.
Qed.

(** ** The window component *)

Module ZWindowProperties.
Import ZWindowComponent.

(** X19: a click on the close button of a [ZWindow] calls [onClose] and
    then, when there is one and [onClose] has not stopped the event,
    [onFocus]: the button sits inside the element that carries [onFocus].
    A click on any other part of the frame ZWindow itself draws (the window,
    the title bar, the group of lights, the two other lights, the title,
    the content box) calls [onFocus] alone. *)
Theorem close_click_also_focuses
    {Handler} (stops : Handler → bool) (p : ZWindowProps Handler) :
  click stops (ZWindow p) [0; 0; 0] =
    Some (onClose p ::
          (if stops (onClose p) then [] else option_list (onFocus p))) ∧
  Forall (λ path, click stops (ZWindow p) path = Some (option_list (onFocus p)))
    [[]; [0]; [0; 0]; [0; 0; 1]; [0; 0; 2]; [0; 1]; [1]].
Proof.
  split.
  - cbn. destruct (stops (onClose p)) eqn:E; cbn; rewrite ?E; cbn;
      by rewrite ?E.
  - repeat (apply Forall_cons; split; [done|]). apply Forall_nil_2.
Qed.

(** X20: the width and the height in the style of a [ZWindow] are those of
    [initialSize], except that a missing [initialSize] and a width or
    height that is zero or NaN give 700 and 500; so they are never zero or
    NaN. *)
Theorem window_size_defaults {Handler} (p : ZWindowProps Handler) :
  ∃ w h,
    style_get (node_style (ZWindow p)) "width" = Some (CSSNumber w) ∧
    style_get (node_style (ZWindow p)) "height" = Some (CSSNumber h) ∧
    w = match initialSize p with
        | Some size => if falsy_number (width size) then 700%float else width size
        | None => 700%float
        end ∧
    h = match initialSize p with
        | Some size => if falsy_number (height size) then 500%float else height size
        | None => 500%float
        end ∧
    falsy_number w = false ∧ falsy_number h = false.
Proof.
  eexists _, _. split; [reflexivity|]. split; [reflexivity|].
  destruct (initialSize p) as [[w h]|]; cbn; [|done].
  destruct (falsy_number w) eqn:Hw, (falsy_number h) eqn:Hh; done.
Qed.

End ZWindowProperties.
